(** * PTT-TBI backend: dataset profiling and model versioning

    A shallow embedding of

    - [backend/app.py]: [infer_schema], [get_profiling_data],
      [allowed_file], [import_dataset], [get_dataset], [delete_dataset];
    - [backend/app/services/data_model_service.py]: [_increment_version],
      [get_data_model_by_id], [get_entity_by_id], [get_attribute_by_id],
      [get_relationship_by_id], [create_relationship], [create_version];
    - [backend/app/services/project_service.py]: [get_project_by_id];

    together with the fragments of Python, pandas and the ORM session that
    these functions call. *)

From Stdlib Require Import ZArith String Ascii List Lia.
From Stdlib Require Import DecimalString Permutation Sorted SpecFloat.
From Stdlib Require DecimalPos DecimalZ.
From stdpp Require Import base gmap strings.

Set Default Goal Selector "!".

(* ================================================================== *)
(** * Python primitives                                                *)
(* ================================================================== *)

(** Python [str] values are modelled by [string]; a character is a code
    point below 256.  Integers are unbounded ([Z]); the interpreter's
    optional cap on the length of integer literals is not modelled. *)

Module Py.

#[local] Open Scope Z_scope.

(** Exceptions that the modelled code can raise. *)
Inductive Exception :=
  | ValueError (msg : string)
  | NameError (name : string)
  | UnboundLocalError (name : string)
  | IndexError (msg : string)
  | AttributeError (msg : string)
  | HTTPException (status_code : Z) (detail : string)
  | LoadError (msg : string).   (* whatever a pandas reader raises *)

Definition is_digit (c : ascii) : bool :=
  (48 <=? nat_of_ascii c)%nat && (nat_of_ascii c <=? 57)%nat.

Definition digit_val (c : ascii) : Z := Z.of_nat (nat_of_ascii c) - 48.

(** Whitespace skipped by [int()] around the literal: tab, line feed,
    vertical tab, form feed, carriage return, space, and (for code points
    above 127) NEL and the no-break space. *)
Definition py_isspace (c : ascii) : bool :=
  let n := nat_of_ascii c in
  ((9 <=? n)%nat && (n <=? 13)%nat) || (n =? 32)%nat || (n =? 133)%nat || (n =? 160)%nat.

Fixpoint lstrip (s : string) : string :=
  match s with
  | String c r => if py_isspace c then lstrip r else s
  | EmptyString => EmptyString
  end.

Fixpoint all_space (s : string) : bool :=
  match s with
  | String c r => py_isspace c && all_space r
  | EmptyString => true
  end.

(** The digit scanner of [int(str)] in base ten, entered after a first
    digit: further digits, each possibly preceded by one underscore.
    [None] is a syntax error (doubled or trailing underscore); otherwise
    the value read and the unread rest. *)
Fixpoint scan_int (s : string) (acc : Z) : option (Z * string) :=
  match s with
  | String c r =>
      if is_digit c then scan_int r (acc * 10 + digit_val c)
      else if Ascii.eqb c "_" then
        match r with
        | String d r' =>
            if is_digit d then scan_int r' (acc * 10 + digit_val d) else None
        | EmptyString => None
        end
      else Some (acc, s)
  | EmptyString => Some (acc, EmptyString)
  end.

(** [int(s)] for a [str] argument; [None] stands for [ValueError]. *)
Definition py_int (s : string) : option Z :=
  let t := lstrip s in
  let '(sign, u) :=
    match t with
    | String "+" r => (1, r)
    | String "-" r => (-1, r)
    | _ => (1, t)
    end in
  match u with
  | String c r =>
      if is_digit c then
        match scan_int r (digit_val c) with
        | Some (n, rest) => if all_space rest then Some (sign * n) else None
        | None => None
        end
      else None
  | EmptyString => None
  end.

(** [str(n)] for an integer. *)
Definition str_int (n : Z) : string := NilZero.string_of_int (Z.to_int n).

(** [int(s)] raising [ValueError] as the interpreter words it. *)
Definition int_ (s : string) : Exception + Z :=
  match py_int s with
  | Some n => inr n
  | None => inl (ValueError ("invalid literal for int() with base 10: " +:+ s))
  end.

End Py.

(* ================================================================== *)
(** * Version labels: [_increment_version]                             *)
(* ================================================================== *)

Module Version.
Import Py.

#[local] Open Scope Z_scope.

(** Longest prefix of decimal digits, and the rest ([\d+] is greedy and
    what follows it in the pattern is never a digit). *)
Fixpoint span_digits (s : string) : string * string :=
  match s with
  | String c r =>
      if is_digit c then
        let '(d, t) := span_digits r in (String c d, t)
      else (EmptyString, s)
  | EmptyString => (EmptyString, EmptyString)
  end.

Definition is_empty (s : string) : bool :=
  match s with EmptyString => true | _ => false end.

Definition newline : string := String (ascii_of_nat 10) EmptyString.

(** [$] matches at the end of the string and just before a line feed that
    ends the string. *)
Definition at_end (s : string) : bool :=
  is_empty s || String.eqb s newline.

(** [re.match(r"^(\d+)\.(\d+)\.(\d+)$", s)]: the three groups. *)
Definition re_match_semver (s : string) : option (string * string * string) :=
  let '(major, r1) := span_digits s in
  if is_empty major then None else
  match r1 with
  | String "." r1' =>
      let '(minor, r2) := span_digits r1' in
      if is_empty minor then None else
      match r2 with
      | String "." r2' =>
          let '(patch, r3) := span_digits r2' in
          if is_empty patch then None else
          if at_end r3 then Some (major, minor, patch) else None
      | _ => None
      end
  | _ => None
  end.

(** [_increment_version(current_version)].  [None] is Python's [None]. *)
Definition _increment_version (current_version : option string)
  : Exception + string :=
  match current_version with
  | None => inr "1.0.0"
  | Some EmptyString => inr "1.0.0"
  | Some s =>
      match re_match_semver s with
      | Some (g1, g2, g3) =>
          match int_ g1, int_ g2, int_ g3 with
          | inr major, inr minor, inr patch =>
              inr (str_int major +:+ "." +:+ str_int minor +:+ "."
                   +:+ str_int (patch + 1))
          | inl e, _, _ => inl e
          | _, inl e, _ => inl e
          | _, _, inl e => inl e
          end
      | None =>
          match int_ s with
          | inr version_num => inr (str_int (version_num + 1))
          | inl (ValueError _) => inr (s +:+ "-new")
          | inl e => inl e
          end
      end
  end.

(** ** The version grammar, declaratively *)

Fixpoint all_digits (s : string) : bool :=
  match s with
  | String c r => is_digit c && all_digits r
  | EmptyString => true
  end.

(** A non-empty run of decimal digits. *)
Definition digit_string (s : string) : Prop :=
  s <> EmptyString /\ all_digits s = true.

(** The number a run of digits denotes (leading zeros allowed). *)
Fixpoint dec_value_from (acc : Z) (s : string) : Z :=
  match s with
  | String c r => dec_value_from (acc * 10 + digit_val c) r
  | EmptyString => acc
  end.

Definition dec_value (s : string) : Z := dec_value_from 0 s.

(** [semver s a b c]: [s] reads MAJOR.MINOR.PATCH with the three integer
    components [a], [b], [c], possibly followed by one final line feed. *)
Inductive semver : string -> string -> string -> string -> Prop :=
  | semver_plain a b c :
      digit_string a -> digit_string b -> digit_string c ->
      semver (a +:+ "." +:+ b +:+ "." +:+ c) a b c
  | semver_newline a b c :
      digit_string a -> digit_string b -> digit_string c ->
      semver (a +:+ "." +:+ b +:+ "." +:+ c +:+ newline) a b c.

(** [s] does not start with a digit. *)
Definition no_digit_head (s : string) : Prop :=
  match s with String c _ => is_digit c = false | EmptyString => True end.


End Version.


(* ================================================================== *)
(** * Double-precision floats                                          *)
(* ================================================================== *)

(** A Python [float] and a numpy [float64] are IEEE 754 binary64 numbers.
    They are modelled by [spec_float] with the operations of the standard
    library's executable specification, each rounding to nearest, ties to
    even.  NaN stands for a missing cell in pandas and is kept out of the
    values by the column type below. *)

Module Float64.
Import Py.

#[local] Open Scope Z_scope.

Definition prec : Z := 53.
Definition emax : Z := 1024.

Definition float := spec_float.

#[global] Instance float_eq_dec : EqDecision spec_float.
Proof. solve_decision. Defined.

(** [float(n)] for an integer. *)
Definition of_int (n : Z) : float := binary_normalize prec emax n 0 false.

Definition add : float -> float -> float := SFadd prec emax.
Definition mul : float -> float -> float := SFmul prec emax.
Definition div : float -> float -> float := SFdiv prec emax.
Definition leb : float -> float -> bool := SFleb.
Definition eqb : float -> float -> bool := SFeqb.

(** The double nearest to the fraction [num / den]. *)
Definition of_ratio (num : Z) (den : positive) : float :=
  match num with
  | Z0 => S754_zero false
  | Zpos n => div (S754_finite false n 0) (S754_finite false den 0)
  | Zneg n => div (S754_finite true n 0) (S754_finite false den 0)
  end.

(** The nearest integer to [a / b], a tie going to the even one. *)
Definition round_half_even (a : Z) (b : positive) : Z :=
  let q := a / Zpos b in
  let r := a mod Zpos b in
  match 2 * r ?= Zpos b with
  | Lt => q
  | Gt => q + 1
  | Eq => if Z.even q then q else q + 1
  end.

(** The exact value of a finite float as a fraction. *)
Definition numerator (x : float) : Z :=
  match x with
  | S754_finite s m e =>
      let n := if 0 <=? e then Zpos m * 2 ^ e else Zpos m in
      if s then - n else n
  | _ => 0
  end.

Definition denominator (x : float) : positive :=
  match x with
  | S754_finite s m e => if 0 <=? e then 1%positive else Z.to_pos (2 ^ (- e))
  | _ => 1%positive
  end.

(** [numpy.rint(x)]: the nearest integral float, ties to even. *)
Definition rint (x : float) : float :=
  match x with
  | S754_finite s m e =>
      if 0 <=? e then x
      else
        match round_half_even (numerator x) (denominator x) with
        | Z0 => S754_zero s
        | n => of_int n
        end
  | _ => x
  end.

(** [round(x, 1)] for a numpy float: scale by ten, round to an integer,
    scale back, each step in double precision. *)
Definition np_round1 (x : float) : float :=
  div (rint (mul x (of_int 10))) (of_int 10).

(** [round(x, 1)] for a Python float: the double nearest to the exact
    value of [x] rounded to one decimal (a tie going to the even digit). *)
Definition py_round1 (x : float) : float :=
  match x with
  | S754_finite s m e =>
      if 0 <=? e then x
      else
        match round_half_even (10 * numerator x) (denominator x) with
        | Z0 => S754_zero s
        | n => of_ratio n 10
        end
  | _ => x
  end.

(** ** Printing *)

(** [repr(x)]: the shortest decimal that reads back as [x]. *)

Definition digit_char (d : Z) : ascii := ascii_of_nat (48 + Z.to_nat d).

(** The decimal exponent [k] of a positive fraction: [10^k <= n/d < 10^(k+1)].
    [up] searches upwards from [k], [down] downwards. *)
Fixpoint exponent_up (fuel : nat) (n d : Z) (k : Z) : Z :=
  match fuel with
  | O => k
  | S fuel' => if d * 10 <=? n then exponent_up fuel' n (d * 10) (k + 1) else k
  end.

Fixpoint exponent_down (fuel : nat) (n d : Z) (k : Z) : Z :=
  match fuel with
  | O => k
  | S fuel' => if n <? d then exponent_down fuel' (n * 10) d (k - 1) else k
  end.

Definition decimal_exponent (n d : Z) : Z :=
  if d <=? n then exponent_up 400 n d 0 else exponent_down 400 n d 0.

(** The fraction [n/d] scaled by [10^j]. *)
Definition scale10 (n d : Z) (j : Z) : Z * Z :=
  if 0 <=? j then (n * 10 ^ j, d) else (n, d * 10 ^ (- j)).

(** [n/d] correctly rounded to [p] significant digits: the digits as an
    integer and the exponent of its last digit. *)
Definition to_precision (n d : Z) (k : Z) (p : Z) : Z * Z :=
  let '(sn, sd) := scale10 n d (p - 1 - k) in
  (round_half_even sn (Z.to_pos sd), k - p + 1).

(** Whether the decimal [digits * 10^j] reads back as the positive [x]. *)
Definition reads_back (x : float) (digits j : Z) : bool :=
  let '(n, d) := scale10 digits 1 j in
  eqb (of_ratio n (Z.to_pos d)) x.

(** The first precision, from [p] on, whose rounding of [n/d] reads back
    as [x]; seventeen digits always do. *)
Fixpoint shortest (fuel : nat) (x : float) (n d k p : Z) : Z * Z :=
  match fuel with
  | O => to_precision n d k 17
  | S fuel' =>
      let '(digits, j) := to_precision n d k p in
      if reads_back x digits j then (digits, j)
      else shortest fuel' x n d k (p + 1)
  end.

Fixpoint strip_zeros (fuel : nat) (digits j : Z) : Z * Z :=
  match fuel with
  | O => (digits, j)
  | S fuel' =>
      if (digits mod 10 =? 0) && negb (digits =? 0)
      then strip_zeros fuel' (digits / 10) (j + 1)
      else (digits, j)
  end.

Fixpoint zeros (n : nat) : string :=
  match n with O => EmptyString | S n' => String "0" (zeros n') end.

(** The first [n] characters of [s], and the rest. *)
Fixpoint split_at (n : nat) (s : string) : string * string :=
  match n, s with
  | S n', String c r => let '(a, b) := split_at n' r in (String c a, b)
  | _, _ => (EmptyString, s)
  end.

(** The layout of [repr]: positional when the decimal point falls within
    sixteen digits to the right or four to the left of the first digit,
    with an exponent otherwise. *)
Definition layout (ds : string) (decpt : Z) : string :=
  let len := Z.of_nat (String.length ds) in
  if (decpt <=? -4) || (16 <? decpt) then
    let '(first, rest) := split_at 1 ds in
    let e := decpt - 1 in
    first +:+ (if Version.is_empty rest then EmptyString else "." +:+ rest)
    +:+ "e" +:+ (if e <? 0 then "-" else "+")
    +:+ (if Z.abs e <? 10 then "0" else EmptyString) +:+ str_int (Z.abs e)
  else if decpt <=? 0 then
    "0." +:+ zeros (Z.to_nat (- decpt)) +:+ ds
  else if len <=? decpt then
    ds +:+ zeros (Z.to_nat (decpt - len)) +:+ ".0"
  else
    let '(int_part, frac_part) := split_at (Z.to_nat decpt) ds in
    int_part +:+ "." +:+ frac_part.

(** [repr(x)], which is also [str(x)]. *)
Definition repr (x : float) : string :=
  match x with
  | S754_zero s => if s then "-0.0" else "0.0"
  | S754_infinity s => if s then "-inf" else "inf"
  | S754_nan => "nan"
  | S754_finite s m e =>
      let pos := S754_finite false m e in
      let n := numerator pos in
      let d := Zpos (denominator pos) in
      let k := decimal_exponent n d in
      let '(digits, j) := shortest 17 pos n d k 1 in
      let '(digits, j) := strip_zeros 20 digits j in
      let ds := str_int digits in
      let decpt := j + Z.of_nat (String.length ds) in
      (if s then "-" else EmptyString) +:+ layout ds decpt
  end.

End Float64.

(* ================================================================== *)
(** * Python values and dictionaries                                   *)
(* ================================================================== *)

Module PyVal.

(** The values stored in the dictionaries that the profiling code builds.
    A [dict] keeps its keys in insertion order. *)
#[warnings="-register-all"]
Inductive pyval :=
  | VNone
  | VBool (b : bool)
  | VInt (n : Z)
  | VFloat (x : Float64.float)
  | VStr (s : string)
  | VDict (d : list (string * pyval)).

Definition dict := list (string * pyval).

(** [d[k] = v]: overwrite in place, or append a new key. *)
Fixpoint dict_set (d : dict) (k : string) (v : pyval) : dict :=
  match d with
  | [] => [(k, v)]
  | (k', v') :: t =>
      if String.eqb k k' then (k', v) :: t else (k', v') :: dict_set t k v
  end.

(** [d.get(k)]. *)
Fixpoint dict_get (d : dict) (k : string) : option pyval :=
  match d with
  | [] => None
  | (k', v') :: t => if String.eqb k k' then Some v' else dict_get t k
  end.

Definition keys (d : dict) : list string := map fst d.

End PyVal.

(* ================================================================== *)
(** * The pandas fragment used by the profiler                         *)
(* ================================================================== *)

Module Pandas.
Import Py PyVal Float64.

#[local] Open Scope Z_scope.

(** A naive (zone-less) timestamp by its calendar fields. *)
Record Timestamp := mkTimestamp {
  year : Z; month : Z; day : Z;
  hour : Z; minute : Z; second : Z; nanosecond : Z
}.

#[global] Instance Timestamp_eq_dec : EqDecision Timestamp.
Proof. solve_decision. Defined.

(** One non-missing cell. *)
Inductive scalar :=
  | SInt (n : Z)
  | SFloat (x : float)
  | STime (t : Timestamp)
  | SBool (b : bool)
  | SStr (s : string).

#[global] Instance scalar_eq_dec : EqDecision scalar.
Proof. solve_decision. Defined.

Inductive Dtype := Int64 | Float64 | Datetime64 | Bool | Object.

(** A column: its dtype fixes what a cell can hold.  [int64] and [bool_]
    have no missing marker; a numeric column with a missing cell is held
    as [float64] with NaN ([None]); [datetime64] has NaT ([None]); an
    [object_] column holds strings and [None]/NaN. *)
Inductive Series :=
  | int64 (values : list Z)
  | float64 (values : list (option float))
  | datetime64 (values : list (option Timestamp))
  | bool_ (values : list bool)
  | object_ (values : list (option string)).

Definition dtype (s : Series) : Dtype :=
  match s with
  | int64 _ => Int64
  | float64 _ => Float64
  | datetime64 _ => Datetime64
  | bool_ _ => Bool
  | object_ _ => Object
  end.

(** The cells of a column, [None] for a missing one. *)
Definition cells (s : Series) : list (option scalar) :=
  match s with
  | int64 vs => map (fun v => Some (SInt v)) vs
  | float64 vs => map (option_map SFloat) vs
  | datetime64 vs => map (option_map STime) vs
  | bool_ vs => map (fun v => Some (SBool v)) vs
  | object_ vs => map (option_map SStr) vs
  end.

Definition is_integer_dtype (d : Dtype) : bool :=
  match d with Int64 => true | _ => false end.
Definition is_float_dtype (d : Dtype) : bool :=
  match d with Float64 => true | _ => false end.
Definition is_datetime64_dtype (d : Dtype) : bool :=
  match d with Datetime64 => true | _ => false end.

(** A frame: [nrows] is [len(df)], [data] the labelled columns in order.
    pandas gives the columns it loads distinct labels and [nrows] cells
    each; the loops below visit the columns as [df[col]] does then. *)
Record DataFrame := mkDataFrame {
  nrows : nat;
  data : list (string * Series)
}.

(** ** Missing values *)

Definition is_missing (c : option scalar) : bool :=
  match c with None => true | Some _ => false end.

(** [s.isnull()] *)
Definition isnull (s : Series) : list bool := map is_missing (cells s).

(** [.any()], [.all()], [.sum()] of a boolean column. *)
Definition any (l : list bool) : bool := existsb (fun b => b) l.
Definition all (l : list bool) : bool := forallb (fun b => b) l.
Definition sum_bool (l : list bool) : Z :=
  fold_left (fun (acc : Z) (b : bool) => if b then acc + 1 else acc) l 0.

(** [s.dropna()] as a list of cells. *)
Fixpoint dropna_cells (l : list (option scalar)) : list scalar :=
  match l with
  | [] => []
  | Some v :: t => v :: dropna_cells t
  | None :: t => dropna_cells t
  end.

Definition dropna (s : Series) : list scalar := dropna_cells (cells s).

(** [s.count()]: the number of non-missing cells. *)
Definition count (s : Series) : Z := Z.of_nat (length (dropna s)).

(** ** Distinct values and frequencies *)

Section Hashing.
Context {K : Type} `{EqDecision K}.

(** One step of the counting hash table: bump the counter of a key already
    seen, or append the key with count one (keys stay in the order in
    which they were first met). *)
Fixpoint bump (k : K) (tbl : list (K * nat)) : list (K * nat) :=
  match tbl with
  | [] => [(k, 1%nat)]
  | (k', c) :: t =>
      if bool_decide (k = k') then (k', S c) :: t else (k', c) :: bump k t
  end.

Definition value_count (vals : list K) : list (K * nat) :=
  fold_left (fun tbl k => bump k tbl) vals [].

(** Insertion behind every entry whose count is at least as large. *)
Fixpoint insert_desc (x : K * nat) (l : list (K * nat)) : list (K * nat) :=
  match l with
  | [] => [x]
  | y :: t => if (snd y <? snd x)%nat then x :: y :: t else y :: insert_desc x t
  end.

(** [sort_values(ascending=False)] on the counts: descending by count.
    Entries of equal count are kept in the order of the table, that is in
    the order in which the column first shows them; this is the behaviour
    of a stable sort, which the model takes for pandas. *)
Definition sort_desc (tbl : list (K * nat)) : list (K * nat) :=
  fold_left (fun acc x => insert_desc x acc) tbl [].

(** Position of the first occurrence of [k] in [l] ([length l] if none). *)
Fixpoint first_index (k : K) (l : list K) : nat :=
  match l with
  | [] => 0%nat
  | x :: t => if bool_decide (k = x) then 0%nat else S (first_index k t)
  end.

Fixpoint occurrences (k : K) (l : list K) : nat :=
  match l with
  | [] => 0%nat
  | x :: t => if bool_decide (k = x) then S (occurrences k t) else occurrences k t
  end.

(** *** Ranking, declaratively *)

Implicit Types (vals : list K) (tbl top : list (K * nat)).



(** What the table holds after the values [vals] have gone through it. *)
Definition counted vals tbl : Prop :=
  List.NoDup (map fst tbl)
  /\ (forall k c, In (k, c) tbl <-> In k vals /\ c = occurrences k vals)
  /\ StronglySorted
       (fun a b => (first_index a vals < first_index b vals)%nat) (map fst tbl).



End Hashing.

(** The key under which the hash table files a cell: cells are told apart
    by [==], for which the two zeros of float64 are one value. *)
Definition hash_key (v : scalar) : scalar :=
  match v with
  | SFloat (S754_zero _) => SFloat (S754_zero false)
  | _ => v
  end.

Definition hash_keys (s : Series) : list scalar := map hash_key (dropna s).

(** [s.nunique()]: the number of distinct non-missing values. *)
Definition nunique (s : Series) : Z :=
  Z.of_nat (length (value_count (hash_keys s))).

(** [s.value_counts()]: missing cells dropped, most frequent first. *)
Definition value_counts (s : Series) : list (scalar * nat) :=
  sort_desc (value_count (hash_keys s)).

(** [.head(n)] *)
Definition head {A : Type} (n : nat) (l : list A) : list A := firstn n l.

(** ** Order, extrema and mean *)

Definition time_key (t : Timestamp) : list Z :=
  [year t; month t; day t; hour t; minute t; second t; nanosecond t].

Fixpoint lex_leb (a b : list Z) : bool :=
  match a, b with
  | [], _ => true
  | _ :: _, [] => false
  | x :: a', y :: b' => (x <? y) || ((x =? y) && lex_leb a' b')
  end.

(** [a <= b] between two cells of one numeric or datetime column. *)
Definition scalar_leb (a b : scalar) : bool :=
  match a, b with
  | SInt x, SInt y => x <=? y
  | SFloat x, SFloat y => leb x y
  | STime x, STime y => lex_leb (time_key x) (time_key y)
  | _, _ => false
  end.

(** [s.min()] and [s.max()] skip missing cells; [None] is the NaN/NaT
    returned when nothing is left. *)
Definition series_min (s : Series) : option scalar :=
  match dropna s with
  | [] => None
  | x :: t => Some (fold_left (fun m y => if scalar_leb y m then y else m) t x)
  end.

Definition series_max (s : Series) : option scalar :=
  match dropna s with
  | [] => None
  | x :: t => Some (fold_left (fun m y => if scalar_leb m y then y else m) t x)
  end.

(** The cast to float64 that [mean] applies to the cells. *)
Definition to_float (v : scalar) : float :=
  match v with
  | SInt n => of_int n
  | SFloat x => x
  | _ => of_int 0
  end.

(** [s.mean()] of a numeric column: the sum of the non-missing cells over
    their number; [None] is NaN.  The cells are added from first to last
    (numpy adds long arrays in blocks, which can change the last bits of a
    long sum). *)
Definition series_mean (s : Series) : option float :=
  match dropna s with
  | [] => None
  | vs => Some (div (fold_left add (map to_float vs) (of_int 0))
                    (of_int (Z.of_nat (length vs))))
  end.

(** ** Printing *)

Definition zpad (width : nat) (n : Z) : string :=
  let s := str_int n in zeros (width - String.length s) +:+ s.

(** [str(t)] for a timestamp: [YYYY-MM-DD HH:MM:SS], followed by the
    fraction of a second in micro- or nanoseconds when it is not zero. *)
Definition str_timestamp (t : Timestamp) : string :=
  zpad 4 (year t) +:+ "-" +:+ zpad 2 (month t) +:+ "-" +:+ zpad 2 (day t)
  +:+ " " +:+ zpad 2 (hour t) +:+ ":" +:+ zpad 2 (minute t) +:+ ":"
  +:+ zpad 2 (second t)
  +:+ (if nanosecond t =? 0 then EmptyString
       else if nanosecond t mod 1000 =? 0
            then "." +:+ zpad 6 (nanosecond t / 1000)
            else "." +:+ zpad 9 (nanosecond t)).

(** [str(v)] *)
Definition str (v : scalar) : string :=
  match v with
  | SInt n => str_int n
  | SFloat x => repr x
  | STime t => str_timestamp t
  | SBool true => "True"
  | SBool false => "False"
  | SStr s => s
  end.

(** [str(s.min())] where [s.min()] may be NaN. *)
Definition str_opt (v : option scalar) : string :=
  match v with Some x => str x | None => "nan" end.

End Pandas.

(* ================================================================== *)
(** * [backend/app.py]: schema inference and profiling                 *)
(* ================================================================== *)

Module Profiler.
Import Py PyVal Float64 Pandas.

#[local] Open Scope Z_scope.

(** [x in [a, b, ...]] for strings. *)
Definition str_in (x : string) (l : list string) : bool :=
  existsb (String.eqb x) l.

(** The if/elif chain on the dtype, shared by both functions. *)
Definition type_name (s : Series) : string :=
  if is_integer_dtype (dtype s) then "INTEGER"
  else if is_float_dtype (dtype s) then "FLOAT"
  else if is_datetime64_dtype (dtype s) then "TIMESTAMP"
  else "VARCHAR".

(** [str(df[col].min()) if not df[col].isnull().all() else None] *)
Definition min_or_none (s : Series) : pyval :=
  if negb (all (isnull s)) then VStr (str_opt (series_min s)) else VNone.

Definition max_or_none (s : Series) : pyval :=
  if negb (all (isnull s)) then VStr (str_opt (series_max s)) else VNone.

(** [float(df[col].mean()) if not df[col].isnull().all() else None] *)
Definition mean_or_none (s : Series) : pyval :=
  if negb (all (isnull s)) then
    match series_mean s with Some m => VFloat m | None => VNone end
  else VNone.

(** The body of the loop of [infer_schema] for the column [col]. *)
Definition column_schema (col : string) (s : Series) : dict :=
  let col_data := [("name", VStr col); ("nullable", VBool (any (isnull s)))] in
  let col_data := dict_set col_data "data_type" (VStr (type_name s)) in
  let unique_count := nunique s in
  let col_data := dict_set col_data "unique_values" (VInt unique_count) in
  let col_data :=
    if str_in (type_name s) ["INTEGER"; "FLOAT"] then
      let col_data := dict_set col_data "min_value" (min_or_none s) in
      let col_data := dict_set col_data "max_value" (max_or_none s) in
      dict_set col_data "avg_value" (mean_or_none s)
    else if String.eqb (type_name s) "TIMESTAMP" then
      let col_data := dict_set col_data "min_value" (min_or_none s) in
      let col_data := dict_set col_data "max_value" (max_or_none s) in
      dict_set col_data "avg_value" VNone
    else
      let col_data := dict_set col_data "min_value" VNone in
      let col_data := dict_set col_data "max_value" VNone in
      dict_set col_data "avg_value" VNone in
  dict_set col_data "missing_count" (VInt (sum_bool (isnull s))).

(** [infer_schema(df)]: one dictionary per column, in column order. *)
Definition infer_schema (df : DataFrame) : list dict :=
  fold_left (fun schema c => schema ++ [column_schema (fst c) (snd c)])
            (data df) [].

(** [round((n / total_rows) * 100, 1) if total_rows > 0 else 100], where
    [round1] is the [round(_, 1)] of the value at hand. *)
Definition percentage (round1 : float -> float) (n : Z) (total_rows : nat)
  : pyval :=
  if (0 <? Z.of_nat total_rows) then
    VFloat (round1 (mul (div (of_int n) (of_int (Z.of_nat total_rows)))
                        (of_int 100)))
  else VInt 100.

(** [{str(k): int(v) for k, v in value_counts.items()}] *)
Definition str_keys (items : list (scalar * nat)) : dict :=
  fold_left (fun d kv => dict_set d (str (fst kv)) (VInt (Z.of_nat (snd kv))))
            items [].

(** The body of the loop of [get_profiling_data] for one column of a
    frame of [total_rows] rows. *)
Definition column_profile (total_rows : nat) (s : Series) : dict :=
  let col_profile := [("type", VStr (type_name s))] in
  (* [count()] returns a numpy integer: the quotient is a numpy float and
     [round] is numpy's *)
  let non_null_count := count s in
  let col_profile :=
    dict_set col_profile "completeness"
             (percentage np_round1 non_null_count total_rows) in
  (* [nunique()] returns a Python int: the quotient is a Python float and
     [round] is the built-in's *)
  let unique_count := nunique s in
  let col_profile :=
    dict_set col_profile "uniqueness"
             (percentage py_round1 unique_count total_rows) in
  if str_in (type_name s) ["INTEGER"; "FLOAT"; "TIMESTAMP"] then
    let col_profile := dict_set col_profile "min" (min_or_none s) in
    dict_set col_profile "max" (max_or_none s)
  else
    if negb (all (isnull s)) then
      let value_counts := head 5 (value_counts s) in
      dict_set col_profile "top_values" (VDict (str_keys value_counts))
    else col_profile.

(** The [columns] entry of the profile once the loop has run. *)
Definition profile_columns (df : DataFrame) : dict :=
  fold_left (fun columns c =>
               dict_set columns (fst c) (VDict (column_profile (nrows df) (snd c))))
            (data df) [].

(** [get_profiling_data(df)] *)
Definition get_profiling_data (df : DataFrame) : dict :=
  [("row_count", VInt (Z.of_nat (nrows df)));
   ("column_count", VInt (Z.of_nat (length (data df))));
   ("columns", VDict (profile_columns df))].

End Profiler.

(* ================================================================== *)
(** * [backend/app.py]: the import route                               *)
(* ================================================================== *)

Module Importer.
Import Py PyVal Pandas Profiler.

#[local] Open Scope Z_scope.

(** ** File names *)

Definition lower_char (c : ascii) : ascii :=
  let n := nat_of_ascii c in
  if ((65 <=? n)%nat && (n <=? 90)%nat)%bool then ascii_of_nat (n + 32) else c.

Definition upper_char (c : ascii) : ascii :=
  let n := nat_of_ascii c in
  if ((97 <=? n)%nat && (n <=? 122)%nat)%bool then ascii_of_nat (n - 32) else c.

(** [s.upper()] on the extensions that reach it (ASCII letters). *)
Fixpoint upper (s : string) : string :=
  match s with
  | String c r => String (upper_char c) (upper r)
  | EmptyString => EmptyString
  end.

(** [s.lower()] *)
Fixpoint lower (s : string) : string :=
  match s with
  | String c r => String (lower_char c) (lower r)
  | EmptyString => EmptyString
  end.

(** The text after the last dot of [s], if [s] has a dot:
    [s.rsplit('.', 1)[1]]. *)
Fixpoint after_last_dot (s : string) : option string :=
  match s with
  | EmptyString => None
  | String c r =>
      match after_last_dot r with
      | Some e => Some e
      | None => if Ascii.eqb c "." then Some r else None
      end
  end.

Definition ALLOWED_EXTENSIONS : list string := ["csv"; "json"; "xlsx"; "xls"].

(** [allowed_file(filename)] *)
Definition allowed_file (filename : string) : bool :=
  match after_last_dot filename with
  | Some ext => str_in (lower ext) ALLOWED_EXTENSIONS
  | None => false
  end.

(** ** The state the route works on *)

Record DatasetRow := mkDatasetRow {
  ds_id : string; ds_name : string; ds_file_path : string;
  ds_file_type : string; ds_size : Z; ds_uploaded_at : string;
  ds_schema : string
}.

Record ColumnRow := mkColumnRow {
  c_id : string; c_dataset_id : string; c_name : option pyval;
  c_data_type : option pyval; c_nullable : option pyval;
  c_unique_values : option pyval; c_min_value : option pyval;
  c_max_value : option pyval; c_avg_value : option pyval;
  c_missing_count : option pyval
}.

(** The upload folder, the two tables, and the counters behind
    [uuid.uuid4()] and [datetime.now()]. *)
Record World := mkWorld {
  files : gmap string string;
  datasets : list DatasetRow;
  columns : list ColumnRow;
  entropy : nat;
  clock : nat
}.

(** The [file] part of a multipart request. *)
Record Upload := mkUpload { filename : string; body : string }.

Record Request := mkRequest { request_files : option Upload }.

(** What the caller gets: a JSON body with a status, or an exception that
    the route does not catch. *)
Inductive Outcome :=
  | Response (payload : dict) (status : Z)
  | Unhandled (e : Exception).

(** [str(e)] *)
Definition str_exception (e : Exception) : string :=
  match e with
  | ValueError m => m
  | NameError n => "name '" +:+ n +:+ "' is not defined"
  | UnboundLocalError n =>
      "local variable '" +:+ n +:+ "' referenced before assignment"
  | IndexError m => m
  | AttributeError m => m
  | HTTPException _ d => d
  | LoadError m => m
  end.

Section Route.

(** Collaborators outside the repository: werkzeug's [secure_filename],
    the three pandas readers (given the content of the file), [json.dumps],
    [uuid.uuid4] and [datetime.now().isoformat()] as functions of a
    counter, and [os.path.join(UPLOAD_FOLDER, _)]. *)
Variable secure_filename : string -> string.
Variables read_csv read_json read_excel : string -> Exception + DataFrame.
Variable json_dumps : list dict -> Exception + string.
Variable uuid4 : nat -> string.
Variable isoformat : nat -> string.
Variable upload_path : string -> string.

(** The reader that the if/elif chain on the extension selects. *)
Definition reader_for (file_ext : string)
  : option (string -> Exception + DataFrame) :=
  if String.eqb file_ext "csv" then Some read_csv
  else if String.eqb file_ext "json" then Some read_json
  else if str_in file_ext ["xlsx"; "xls"] then Some read_excel
  else None.

(** Loading [df] from the saved file; with no branch of the chain taken
    [df] stays unbound and its first use raises. *)
Definition load_data (file_ext : string) (path : string) (w : World)
  : Exception + DataFrame :=
  match reader_for file_ext with
  | Some reader =>
      match files w !! path with
      | Some content => reader content
      | None => inl (LoadError ("No such file or directory: " +:+ path))
      end
  | None => inl (UnboundLocalError "df")
  end.

(** The [INSERT INTO columns] of the loop, one fresh id per column. *)
Definition column_rows (dataset_id : string) (schema : list dict) (seed : nat)
  : list ColumnRow :=
  fst (fold_left
         (fun (acc : list ColumnRow * nat) (col_info : dict) =>
            let '(rows, n) := acc in
            (rows ++ [mkColumnRow (uuid4 n) dataset_id
                        (dict_get col_info "name")
                        (dict_get col_info "data_type")
                        (dict_get col_info "nullable")
                        (dict_get col_info "unique_values")
                        (dict_get col_info "min_value")
                        (dict_get col_info "max_value")
                        (dict_get col_info "avg_value")
                        (dict_get col_info "missing_count")],
             S n))
         schema ([], seed)).

(** The [except Exception] handler: remove the upload, answer 500. *)
Definition on_failure (e : Exception) (file_path : string) (w : World)
  : Outcome * World :=
  (Response [("error", VStr (str_exception e))] 500,
   mkWorld (delete file_path (files w)) (datasets w) (columns w)
           (entropy w) (clock w)).

(** [import_dataset()] on a request, from a state of the world. *)
Definition import_dataset (request : Request) (w : World) : Outcome * World :=
  match request_files request with
  | None => (Response [("error", VStr "No file part")] 400, w)
  | Some file =>
      if String.eqb (filename file) EmptyString then
        (Response [("error", VStr "No selected file")] 400, w)
      else if allowed_file (filename file) then
        let filename := secure_filename (filename file) in
        let dataset_id := uuid4 (entropy w) in
        let file_path := upload_path (dataset_id +:+ "_" +:+ filename) in
        (* file.save(file_path) *)
        let w := mkWorld (<[file_path := body file]> (files w)) (datasets w)
                         (columns w) (S (entropy w)) (clock w) in
        let size := Z.of_nat (String.length (body file)) in
        match after_last_dot filename with
        | None => (Unhandled (IndexError "list index out of range"), w)
        | Some ext =>
            let file_ext := lower ext in
            (* try: *)
            match load_data file_ext file_path w with
            | inl e => on_failure e file_path w
            | inr df =>
                let schema := infer_schema df in
                let profile := get_profiling_data df in
                match json_dumps schema with
                | inl e => on_failure e file_path w
                | inr schema_json =>
                    let t0 := clock w in
                    let row :=
                      mkDatasetRow dataset_id filename file_path
                        (upper file_ext) size (isoformat t0) schema_json in
                    let cols := column_rows dataset_id schema (entropy w) in
                    (* conn.commit() *)
                    let w := mkWorld (files w) (datasets w ++ [row])
                               (columns w ++ cols)
                               (entropy w + length schema)%nat (S (S t0)) in
                    (Response
                       [("id", VStr dataset_id); ("name", VStr filename);
                        ("type", VStr (upper file_ext)); ("size", VInt size);
                        ("uploaded_at", VStr (isoformat (S t0)));
                        ("row_count", VInt (Z.of_nat (nrows df)));
                        ("column_count", VInt (Z.of_nat (length (data df))))]
                       200, w)
                end
            end
        end
      else (Response [("error", VStr "File type not allowed")] 400, w)
  end.

End Route.

End Importer.

(* ================================================================== *)
(** * [backend/app/models]: the rows of the data-model graph            *)
(* ================================================================== *)

(** A UUID is a number; a JSON column holds a Python value; a nullable
    column is an [option]. *)
Definition UUID := N.
Definition JSON := PyVal.pyval.

Inductive ModelType := LOGICAL | PHYSICAL | DIMENSIONAL | HYBRID.

Inductive RelationshipType :=
  ONE_TO_ONE | ONE_TO_MANY | MANY_TO_ONE | MANY_TO_MANY | INHERITANCE.

Module Project.
Record t := mk {
  id : UUID;
  is_public : bool;
  owner_id : UUID;
  members : list UUID
}.
End Project.

Module DataModel.
Record t := mk {
  id : UUID;
  created_at : N;
  updated_at : N;
  name : string;
  description : option string;
  model_type : ModelType;
  version : option string;
  is_latest_version : bool;
  parent_model_id : option UUID;
  database_dialect : option string;
  layout_data : JSON;
  tags : option (list string);
  metadata : JSON;
  project_id : UUID;
  owner_id : UUID
}.

(** [m.is_latest_version = b], stamped by [onupdate=func.now()]. *)
Definition set_is_latest_version (m : t) (b : bool) (now : N) : t :=
  mk (id m) (created_at m) now (name m) (description m) (model_type m)
     (version m) b (parent_model_id m) (database_dialect m) (layout_data m)
     (tags m) (metadata m) (project_id m) (owner_id m).
End DataModel.

Module Entity.
Record t := mk {
  id : UUID;
  created_at : N;
  updated_at : N;
  name : string;
  description : option string;
  schema_name : option string;
  table_name : option string;
  is_view : bool;
  position_x : option Z;
  position_y : option Z;
  color : option string;
  metadata : JSON;
  data_model_id : UUID
}.
End Entity.

Module Attribute.
Record t := mk {
  id : UUID;
  created_at : N;
  updated_at : N;
  name : string;
  description : option string;
  data_type : string;
  length : option Z;
  precision : option Z;
  scale : option Z;
  is_nullable : bool;
  is_primary_key : bool;
  is_unique : bool;
  default_value : option string;
  check_constraint : option string;
  position : option Z;
  metadata : JSON;
  entity_id : UUID
}.
End Attribute.

Module Relationship.
Record t := mk {
  id : UUID;
  created_at : N;
  updated_at : N;
  name : option string;
  description : option string;
  relationship_type : RelationshipType;
  identifying : bool;
  cardinality_source : option string;
  cardinality_target : option string;
  verbalize_source_to_target : option string;
  verbalize_target_to_source : option string;
  metadata : JSON;
  data_model_id : UUID;
  source_entity_id : UUID;
  target_entity_id : UUID
}.
End Relationship.

Module RelationshipAttribute.
Record t := mk {
  id : UUID;
  created_at : N;
  updated_at : N;
  relationship_id : UUID;
  source_attribute_id : UUID;
  target_attribute_id : UUID
}.
End RelationshipAttribute.

(* ================================================================== *)
(** * The ORM session                                                  *)
(* ================================================================== *)

Module Session.
Import Py.

(** The tables, in row order, with the two sources of fresh values: the
    next identifier [uuid.uuid4] hands out (a counter stands for its
    collision-free draws) and the database clock behind [func.now()]. *)
Record Store := mk {
  projects : list Project.t;
  data_models : list DataModel.t;
  entities : list Entity.t;
  attributes : list Attribute.t;
  relationships : list Relationship.t;
  relationship_attributes : list RelationshipAttribute.t;
  next_uuid : UUID;
  now : N
}.

(** A unit of work on the session: it raises, or it returns a value and
    the session with the rows flushed so far.  An exception that leaves the
    service function leaves the session uncommitted, so its work is
    dropped. *)
Definition M (A : Type) : Type := Store -> Exception + (A * Store).

Definition ret {A} (x : A) : M A := fun st => inr (x, st).

Definition bind {A B} (c : M A) (k : A -> M B) : M B :=
  fun st => match c st with
            | inl e => inl e
            | inr (x, st') => k x st'
            end.

Definition raise {A} (e : Exception) : M A := fun _ => inl e.

Definition get : M Store := fun st => inr (st, st).

Definition put (st : Store) : M unit := fun _ => inr (tt, st).

(** An expression that may raise. *)
Definition lift {A} (r : Exception + A) : M A :=
  match r with inl e => raise e | inr x => ret x end.

(** [for x in l: acc = body(acc, x)] *)
Fixpoint for_each {A B} (l : list A) (acc : B) (body : B -> A -> M B) : M B :=
  match l with
  | [] => ret acc
  | x :: t => bind (body acc x) (fun acc' => for_each t acc' body)
  end.

(** [uuid.uuid4()], the column default of every primary key. *)
Definition uuid4 : M UUID :=
  fun st => inr (next_uuid st,
                 mk (projects st) (data_models st) (entities st) (attributes st)
                    (relationships st) (relationship_attributes st)
                    (N.succ (next_uuid st)) (now st)).

(** What a session commits when the call ends with [r]: the new rows after
    [db.commit()], the old ones after an exception. *)
Definition committed {A} (st : Store) (r : Exception + (A * Store)) : Store :=
  match r with
  | inl _ => st
  | inr (_, st') => st'
  end.

End Session.

Declare Scope session_scope.
Delimit Scope session_scope with session.
Notation "x <- c1 ;; c2" := (Session.bind c1 (fun x => c2))
  (at level 100, c1 at next level, right associativity) : session_scope.
Notation "c1 ;;; c2" := (Session.bind c1 (fun _ => c2))
  (at level 100, right associativity) : session_scope.

(* ================================================================== *)
(** * [project_service.py] and [data_model_service.py]                 *)
(* ================================================================== *)

Module Cloner.
Import Py Session.

#[local] Open Scope session_scope.

(** The names bound at module level in [data_model_service.py]: its
    imports and its own functions. *)
Definition module_globals : list string :=
  ["Optional"; "List"; "Dict"; "Any"; "Set"; "Tuple"; "UUID"; "datetime";
   "Session"; "HTTPException"; "status"; "uuid"; "re";
   "DataModel"; "Entity"; "Attribute"; "Relationship"; "ModelType";
   "DataModelCreate"; "DataModelUpdate"; "EntityCreate"; "EntityUpdate";
   "AttributeCreate"; "AttributeUpdate"; "RelationshipCreate";
   "RelationshipUpdate"; "DDLGenerationOptions"; "GeneratedDDL";
   "project_service";
   "get_data_model_by_id"; "get_data_models"; "create_data_model";
   "update_data_model"; "delete_data_model"; "create_version";
   "get_entity_by_id"; "create_entity"; "update_entity"; "delete_entity";
   "get_attribute_by_id"; "create_attribute"; "update_attribute";
   "delete_attribute"; "get_relationship_by_id"; "create_relationship";
   "update_relationship"; "delete_relationship";
   "_increment_version"].

(** Evaluating a global name inside a function of the module. *)
Definition global (name : string) : M unit :=
  if Profiler.str_in name module_globals then ret tt
  else raise (NameError name).

(** [project_service.get_project_by_id(db, project_id, user_id)].  The
    [Project] model has [owner], [data_models] and [members]; it has no
    attribute [users], so the membership test raises when it is reached. *)
Definition get_project_by_id (project_id : UUID) (user_id : option UUID)
  : M Project.t :=
  st <- get ;;
  match find (fun p => N.eqb (Project.id p) project_id) (projects st) with
  | None =>
      raise (HTTPException 404
               ("Project with ID " +:+ str_int (Z.of_N project_id) +:+ " not found"))
  | Some project =>
      match user_id with
      | Some u =>
          if negb (Project.is_public project)
             && negb (N.eqb (Project.owner_id project) u)
          then raise (AttributeError "'Project' object has no attribute 'users'")
          else ret project
      | None => ret project
      end
  end.

(** [get_data_model_by_id(db, model_id, user_id)] *)
Definition get_data_model_by_id (model_id : UUID) (user_id : option UUID)
  : M DataModel.t :=
  st <- get ;;
  match find (fun m => N.eqb (DataModel.id m) model_id) (data_models st) with
  | None =>
      raise (HTTPException 404
               ("Data model with ID " +:+ str_int (Z.of_N model_id) +:+ " not found"))
  | Some data_model =>
      match user_id with
      | Some u =>
          get_project_by_id (DataModel.project_id data_model) (Some u) ;;;
          ret data_model
      | None => ret data_model
      end
  end.

(** ** Flushing rows *)

(** [source_model.is_latest_version = False; db.add(source_model)]: the row
    with the identifier of [m] is replaced at flush. *)
Definition update_data_model (m : DataModel.t) : M unit :=
  fun st =>
    inr (tt,
         mk (projects st)
            (map (fun r => if N.eqb (DataModel.id r) (DataModel.id m) then m else r)
                 (data_models st))
            (entities st) (attributes st) (relationships st)
            (relationship_attributes st) (next_uuid st) (now st)).

(** [db.add(row); db.flush()] for a new row: the primary key and the two
    timestamps take their defaults, the row is appended to its table. *)
Definition add_data_model (row : UUID -> N -> DataModel.t) : M DataModel.t :=
  id <- uuid4 ;;
  st <- get ;;
  let r := row id (now st) in
  put (mk (projects st) (data_models st ++ [r]) (entities st) (attributes st)
          (relationships st) (relationship_attributes st) (next_uuid st)
          (now st)) ;;;
  ret r.

Definition add_entity (row : UUID -> N -> Entity.t) : M Entity.t :=
  id <- uuid4 ;;
  st <- get ;;
  let r := row id (now st) in
  put (mk (projects st) (data_models st) (entities st ++ [r]) (attributes st)
          (relationships st) (relationship_attributes st) (next_uuid st)
          (now st)) ;;;
  ret r.

Definition add_attribute (row : UUID -> N -> Attribute.t) : M Attribute.t :=
  id <- uuid4 ;;
  st <- get ;;
  let r := row id (now st) in
  put (mk (projects st) (data_models st) (entities st) (attributes st ++ [r])
          (relationships st) (relationship_attributes st) (next_uuid st)
          (now st)) ;;;
  ret r.

Definition add_relationship (row : UUID -> N -> Relationship.t)
  : M Relationship.t :=
  id <- uuid4 ;;
  st <- get ;;
  let r := row id (now st) in
  put (mk (projects st) (data_models st) (entities st) (attributes st)
          (relationships st ++ [r]) (relationship_attributes st)
          (next_uuid st) (now st)) ;;;
  ret r.

Definition add_mapping (row : UUID -> N -> RelationshipAttribute.t)
  : M RelationshipAttribute.t :=
  id <- uuid4 ;;
  st <- get ;;
  let r := row id (now st) in
  put (mk (projects st) (data_models st) (entities st) (attributes st)
          (relationships st) (relationship_attributes st ++ [r])
          (next_uuid st) (now st)) ;;;
  ret r.

(** ** The relationships of a loaded row *)

(** [source_model.entities] *)
Definition entities_of (st : Store) (m : DataModel.t) : list Entity.t :=
  List.filter (fun e => N.eqb (Entity.data_model_id e) (DataModel.id m)) (entities st).

(** [source_entity.attributes] *)
Definition attributes_of (st : Store) (e : Entity.t) : list Attribute.t :=
  List.filter (fun a => N.eqb (Attribute.entity_id a) (Entity.id e)) (attributes st).

(** [source_model.relationships] *)
Definition relationships_of (st : Store) (m : DataModel.t)
  : list Relationship.t :=
  List.filter (fun r => N.eqb (Relationship.data_model_id r) (DataModel.id m))
         (relationships st).

(** [source_rel.attribute_mappings] *)
Definition attribute_mappings_of (st : Store) (r : Relationship.t)
  : list RelationshipAttribute.t :=
  List.filter (fun x => N.eqb (RelationshipAttribute.relationship_id x)
                         (Relationship.id r))
         (relationship_attributes st).

(** ** [create_version] *)

Definition id_map := gmap UUID UUID.

(** The inner loop over [source_entity.attributes]. *)
Definition copy_attributes (source_attrs : list Attribute.t)
    (new_entity : Entity.t) (attribute_id_map : id_map) : M id_map :=
  for_each source_attrs attribute_id_map (fun attribute_id_map source_attr =>
    global "Attribute" ;;;
    new_attr <- add_attribute (fun id ts =>
      Attribute.mk id ts ts
        (Attribute.name source_attr)
        (Attribute.description source_attr)
        (Attribute.data_type source_attr)
        (Attribute.length source_attr)
        (Attribute.precision source_attr)
        (Attribute.scale source_attr)
        (Attribute.is_nullable source_attr)
        (Attribute.is_primary_key source_attr)
        (Attribute.is_unique source_attr)
        (Attribute.default_value source_attr)
        (Attribute.check_constraint source_attr)
        (Attribute.position source_attr)
        (Attribute.metadata source_attr)
        (Entity.id new_entity)) ;;
    ret (<[Attribute.id source_attr := Attribute.id new_attr]> attribute_id_map)).

(** The loop over [source_model.entities]; it returns both maps. *)
Definition copy_entities (source_model new_model : DataModel.t)
  : M (id_map * id_map) :=
  st0 <- get ;;
  for_each (entities_of st0 source_model) (∅, ∅) (fun maps source_entity =>
    let '(entity_id_map, attribute_id_map) := maps in
    global "Entity" ;;;
    new_entity <- add_entity (fun id ts =>
      Entity.mk id ts ts
        (Entity.name source_entity)
        (Entity.description source_entity)
        (Entity.schema_name source_entity)
        (Entity.table_name source_entity)
        (Entity.is_view source_entity)
        (Entity.position_x source_entity)
        (Entity.position_y source_entity)
        (Entity.color source_entity)
        (Entity.metadata source_entity)
        (DataModel.id new_model)) ;;
    let entity_id_map :=
      <[Entity.id source_entity := Entity.id new_entity]> entity_id_map in
    st <- get ;;
    attribute_id_map <-
      copy_attributes (attributes_of st source_entity) new_entity
                      attribute_id_map ;;
    ret (entity_id_map, attribute_id_map)).

(** The loop over [source_rel.attribute_mappings]. *)
Definition copy_mappings (mappings : list RelationshipAttribute.t)
    (new_rel : Relationship.t) (attribute_id_map : id_map) : M unit :=
  for_each mappings tt (fun _ mapping =>
    match attribute_id_map !! RelationshipAttribute.source_attribute_id mapping,
          attribute_id_map !! RelationshipAttribute.target_attribute_id mapping
    with
    | Some new_source, Some new_target =>
        global "RelationshipAttributeMapping" ;;;
        add_mapping (fun id ts =>
          RelationshipAttribute.mk id ts ts
            (Relationship.id new_rel) new_source new_target) ;;;
        ret tt
    | _, _ => ret tt   (* continue *)
    end).

(** The loop over [source_model.relationships]. *)
Definition copy_relationships (source_model new_model : DataModel.t)
    (entity_id_map attribute_id_map : id_map) : M unit :=
  st0 <- get ;;
  for_each (relationships_of st0 source_model) tt (fun _ source_rel =>
    match entity_id_map !! Relationship.source_entity_id source_rel,
          entity_id_map !! Relationship.target_entity_id source_rel
    with
    | Some new_source, Some new_target =>
        global "Relationship" ;;;
        new_rel <- add_relationship (fun id ts =>
          Relationship.mk id ts ts
            (Relationship.name source_rel)
            (Relationship.description source_rel)
            (Relationship.relationship_type source_rel)
            (Relationship.identifying source_rel)
            (Relationship.cardinality_source source_rel)
            (Relationship.cardinality_target source_rel)
            (Relationship.verbalize_source_to_target source_rel)
            (Relationship.verbalize_target_to_source source_rel)
            (Relationship.metadata source_rel)
            (DataModel.id new_model)
            new_source new_target) ;;
        st <- get ;;
        copy_mappings (attribute_mappings_of st source_rel) new_rel
                      attribute_id_map
    | _, _ => ret tt   (* continue *)
    end).

(** [create_version(db, model_id, user_id)] up to and including
    [db.commit()]. *)
Definition create_version (model_id user_id : UUID) : M DataModel.t :=
  source_model <- get_data_model_by_id model_id (Some user_id) ;;
  global "DataModel" ;;;
  global "_increment_version" ;;;
  version <- lift (Version._increment_version (DataModel.version source_model)) ;;
  let new_model := fun id ts =>
    DataModel.mk id ts ts
      (DataModel.name source_model)
      (DataModel.description source_model)
      (DataModel.model_type source_model)
      (Some version)
      true
      (Some (DataModel.id source_model))
      (DataModel.database_dialect source_model)
      (DataModel.layout_data source_model)
      (DataModel.tags source_model)
      (DataModel.metadata source_model)
      (DataModel.project_id source_model)
      user_id in
  st <- get ;;
  (* source_model.is_latest_version = False *)
  let source_model :=
    DataModel.set_is_latest_version source_model false (now st) in
  update_data_model source_model ;;;
  new_model <- add_data_model new_model ;;
  maps <- copy_entities source_model new_model ;;
  let '(entity_id_map, attribute_id_map) := maps in
  copy_relationships source_model new_model entity_id_map attribute_id_map ;;;
  ret new_model.

(** ** Frames *)

(** The session holds the data models [D], and the attribute mappings
    [R]. *)
Definition same_models (D : list DataModel.t) (st : Store) : Prop :=
  data_models st = D.

Definition same_mappings (R : list RelationshipAttribute.t) (st : Store) : Prop :=
  relationship_attributes st = R.

End Cloner.

(* ================================================================== *)
(** * The quantities and sample data the specification speaks of        *)
(* ================================================================== *)

Module Spec.
Import Py PyVal Float64 Pandas Profiler.

#[local] Open Scope Z_scope.

(** The number of cells of a column that are not missing. *)
Definition non_missing_count (s : Series) : Z :=
  Z.of_nat (length (List.filter (fun c => negb (is_missing c)) (cells s))).

(** The number of cells of a column that are missing. *)
Definition missing_count (s : Series) : Z :=
  Z.of_nat (length (List.filter is_missing (cells s))).

(** The number of distinct values among the non-missing cells (0.0 and
    -0.0 being one value). *)
Definition unique_value_count (s : Series) : Z :=
  Z.of_nat (length (nodup (fun x y : scalar => decide (x = y))
                          (map hash_key (dropna s)))).

(** [round(100 * n / total_row_count, 1)], the percentage as the
    specification writes it, and 100 for an empty frame. *)
Definition stated_percentage (n : Z) (total_row_count : nat) : pyval :=
  match total_row_count with
  | O => VInt 100
  | S _ =>
      VFloat (py_round1 (div (of_int (100 * n))
                             (of_int (Z.of_nat total_row_count))))
  end.

(** [round((n / total_row_count) * 100, 1)], the quotient taken first and
    each step rounded to a double, and 100 for an empty frame. *)
Definition quotient_percentage (round1 : float -> float) (n : Z)
    (total_row_count : nat) : pyval :=
  match total_row_count with
  | O => VInt 100
  | S _ =>
      VFloat (round1 (mul (div (of_int n) (of_int (Z.of_nat total_row_count)))
                          (of_int 100)))
  end.




(** The column [1, 2, 2, null]: pandas holds integers next to a missing
    cell as float64. *)
Definition column_1_2_2_null : Series :=
  float64 [Some (of_int 1); Some (of_int 2); Some (of_int 2); None].


(** A column of one missing cell as a CSV reader delivers it, and the
    column of a file that has a header and no rows. *)
Definition column_one_nan : Series := float64 [None].
Definition column_no_rows : Series := object_ [].

(** A frame of two rows with an all-missing text column. *)
Definition frame_with_empty_text : DataFrame :=
  mkDataFrame 2 [("id", int64 [1; 2]); ("note", object_ [None; None])].

(** What the specification states for the column [1, 2, 2, null]. *)
Definition stated_for_1_2_2_null (schema profile : dict) : Prop :=
  dict_get schema "data_type" = Some (VStr "INTEGER")
  /\ dict_get schema "nullable" = Some (VBool true)
  /\ dict_get schema "missing_count" = Some (VInt 1)
  /\ dict_get schema "unique_values" = Some (VInt 2)
  /\ dict_get schema "min_value" = Some (VStr "1")
  /\ dict_get schema "max_value" = Some (VStr "2")
  /\ dict_get schema "avg_value" = Some (VFloat (of_ratio 3 2))
  /\ dict_get profile "completeness" = Some (VFloat (of_int 75))
  /\ dict_get profile "uniqueness" = Some (VFloat (of_int 50)).

(** A frame of 80 rows whose one column has 23 non-missing cells. *)
Definition column_23_of_80 : Series :=
  float64 (repeat (Some (of_int 1)) 23 ++ repeat None 57).

Definition frame_23_of_80 : DataFrame :=
  mkDataFrame 80 [("x", column_23_of_80)].

(** What the specification states for the column [col], holding [s], in
    the profile of [df]. *)
Definition stated_percentages (df : DataFrame) (col : string) (s : Series)
  : Prop :=
  exists columns col_profile,
    dict_get (get_profiling_data df) "columns" = Some (VDict columns)
    /\ dict_get columns col = Some (VDict col_profile)
    /\ dict_get col_profile "completeness"
       = Some (stated_percentage (non_missing_count s) (nrows df))
    /\ dict_get col_profile "uniqueness"
       = Some (stated_percentage (unique_value_count s) (nrows df)).

(** What the specification states for a column without a non-missing
    cell. *)
Definition stated_for_all_missing (schema : dict) : Prop :=
  dict_get schema "data_type" = Some (VStr "VARCHAR")
  /\ dict_get schema "nullable" = Some (VBool true)
  /\ dict_get schema "min_value" = Some VNone
  /\ dict_get schema "max_value" = Some VNone
  /\ dict_get schema "avg_value" = Some VNone
  /\ dict_get schema "unique_values" = Some (VInt 0).

(** ** Sample collaborators and state for the import route *)

(** A reader that rejects an empty file, as pandas does, and otherwise
    delivers an empty frame. *)
Definition sample_reader (content : string) : Exception + DataFrame :=
  if Version.is_empty content
  then inl (LoadError "No columns to parse from file")
  else inr (mkDataFrame 0 []).

Definition sample_json_dumps (schema : list dict) : Exception + string :=
  inr "[]".

Definition sample_uuid4 (n : nat) : string := str_int (Z.of_nat n).
Definition sample_isoformat (n : nat) : string := str_int (Z.of_nat n).
Definition sample_upload_path (name : string) : string := "uploads/" +:+ name.
Definition sample_secure_filename (name : string) : string := name.

Definition empty_world : Importer.World := Importer.mkWorld ∅ [] [] 0 0.


End Spec.

Module SpecGraph.
Import PyVal.

#[local] Open Scope N_scope.

(** ** A sample model graph *)

(** A public project of user 1 with one model: two entities, three
    attributes, one relationship carrying two attribute mappings. *)
Definition sample_project : Project.t := Project.mk 10 true 1 [].

Definition sample_model : DataModel.t :=
  DataModel.mk 20 5 5 "Sales" None LOGICAL (Some "1.2.3") true None None
               VNone None VNone 10 1.

Definition customer : Entity.t :=
  Entity.mk 30 5 5 "Customer" None None None false None None None VNone 20.
Definition order : Entity.t :=
  Entity.mk 31 5 5 "Order" None None None false None None None VNone 20.

Definition customer_id : Attribute.t :=
  Attribute.mk 40 5 5 "id" None "int" None None None false true true
               None None None VNone 30.
Definition order_id : Attribute.t :=
  Attribute.mk 41 5 5 "id" None "int" None None None false true true
               None None None VNone 31.
Definition order_customer : Attribute.t :=
  Attribute.mk 42 5 5 "customer_id" None "int" None None None false false false
               None None None VNone 31.

Definition places : Relationship.t :=
  Relationship.mk 50 5 5 None None ONE_TO_MANY false None None None None
                  VNone 20 30 31.

Definition places_key : RelationshipAttribute.t :=
  RelationshipAttribute.mk 60 5 5 50 40 42.
Definition places_aux : RelationshipAttribute.t :=
  RelationshipAttribute.mk 61 5 5 50 40 41.

Definition sample_store : Session.Store :=
  Session.mk [sample_project] [sample_model] [customer; order]
             [customer_id; order_id; order_customer] [places]
             [places_key; places_aux] 100 7.

(** The same graph without the attribute mappings. *)
Definition sample_store_unmapped : Session.Store :=
  Session.mk [sample_project] [sample_model] [customer; order]
             [customer_id; order_id; order_customer] [places] [] 100 7.


End SpecGraph.

(* ================================================================== *)
(** * Chains of versions                                               *)
(* ================================================================== *)

Module Lineage.
Import Py Version.

#[local] Open Scope Z_scope.


(** The label after [n] further versions: each call of [create_version]
    passes the label of the model it copies to [_increment_version] and
    stores the result on the copy, which is the source of the next call. *)
Fixpoint successor (n : nat) (current_version : option string)
  : Exception + string :=
  match n with
  | O => _increment_version current_version
  | S n' =>
      match _increment_version current_version with
      | inr version => successor n' (Some version)
      | inl e => inl e
      end
  end.

(** The characters [int()] reads: blanks, a sign, digits, underscores. *)
Definition int_char (c : ascii) : Prop :=
  py_isspace c = true \/ is_digit c = true \/ c = "+"%char \/ c = "-"%char
  \/ c = "_"%char.

End Lineage.

(* ================================================================== *)
(** * [backend/app.py]: the routes that read and delete a dataset      *)
(* ================================================================== *)

Module Routes.
Import Py PyVal Importer.

#[local] Open Scope Z_scope.

(** The value a route hands to [jsonify]. *)
Inductive Body :=
  | Error (message : string)                        (* {'error': message} *)
  | Dataset (row : DatasetRow) (cols : list ColumnRow)
                                    (* dict(row) with the key 'columns' *)
  | Success.                                        (* {'success': True} *)

(** [SELECT ... FROM datasets WHERE id = ?] followed by [fetchone()]. *)
Definition select_dataset (dataset_id : string) (w : World) : option DatasetRow :=
  find (fun r => String.eqb (ds_id r) dataset_id) (datasets w).

(** [SELECT * FROM columns WHERE dataset_id = ?] followed by [fetchall()]. *)
Definition select_columns (dataset_id : string) (w : World) : list ColumnRow :=
  List.filter (fun c => String.eqb (c_dataset_id c) dataset_id) (columns w).

(** [get_dataset(dataset_id)] *)
Definition get_dataset (dataset_id : string) (w : World) : Body * Z :=
  match select_dataset dataset_id w with
  | None => (Error "Dataset not found", 404)
  | Some dataset => (Dataset dataset (select_columns dataset_id w), 200)
  end.

(** [delete_dataset(dataset_id)]: the two [DELETE] statements, the commit,
    then the removal of the file if it exists. *)
Definition delete_dataset (dataset_id : string) (w : World) : (Body * Z) * World :=
  match select_dataset dataset_id w with
  | None => ((Error "Dataset not found", 404), w)
  | Some result =>
      let file_path := ds_file_path result in
      let w :=
        mkWorld (files w)
                (List.filter (fun r => negb (String.eqb (ds_id r) dataset_id))
                             (datasets w))
                (List.filter (fun c => negb (String.eqb (c_dataset_id c) dataset_id))
                             (columns w))
                (entropy w) (clock w) in
      ((Success, 200),
       mkWorld (delete file_path (files w)) (datasets w) (columns w)
               (entropy w) (clock w))
  end.

End Routes.

(* ================================================================== *)
(** * Sample uploads and datasets                                      *)
(* ================================================================== *)

Module RouteSamples.
Import Py PyVal Importer.

#[local] Open Scope Z_scope.

(** A [secure_filename] that, like werkzeug's, drops the dots and
    underscores a name starts with. *)
Fixpoint strip_leading (name : string) : string :=
  match name with
  | String c r =>
      if (Ascii.eqb c "." || Ascii.eqb c "_")%bool then strip_leading r else name
  | EmptyString => EmptyString
  end.

(** An upload named [.csv]. *)
Definition dot_csv_upload : Request :=
  mkRequest (Some (mkUpload ".csv" "a,b")).

(** An upload whose content no reader accepts. *)
Definition broken_json_upload : Request :=
  mkRequest (Some (mkUpload "rows.json" EmptyString)).

(** Two stored datasets, the first with two columns, the second with
    one. *)
Definition sales_row : DatasetRow :=
  mkDatasetRow "d1" "sales.csv" "uploads/d1_sales.csv" "CSV" 120
               "2024-01-01T00:00:00" "[]".
Definition stock_row : DatasetRow :=
  mkDatasetRow "d2" "stock.json" "uploads/d2_stock.json" "JSON" 64
               "2024-01-02T00:00:00" "[]".

Definition column_of (id dataset_id name : string) : ColumnRow :=
  mkColumnRow id dataset_id (Some (VStr name)) (Some (VStr "VARCHAR"))
              (Some (VBool false)) (Some (VInt 1)) (Some VNone) (Some VNone)
              (Some VNone) (Some (VInt 0)).

Definition two_datasets : World :=
  mkWorld (<["uploads/d1_sales.csv" := "x"]>
             (<["uploads/d2_stock.json" := "y"]> ∅))
          [sales_row; stock_row]
          [column_of "c1" "d1" "region"; column_of "c2" "d2" "item";
           column_of "c3" "d1" "amount"]
          5 9.

End RouteSamples.

(* ================================================================== *)
(** * [data_model_service.py]: entities, attributes, relationships     *)
(* ================================================================== *)

(** The request bodies of [schemas/data_model.py]. *)
Module RelationshipAttributeMappingCreate.
Record t := mk {
  source_attribute_id : UUID;
  target_attribute_id : UUID
}.
End RelationshipAttributeMappingCreate.

Module RelationshipCreate.
Record t := mk {
  name : option string;
  description : option string;
  source_entity_id : UUID;
  target_entity_id : UUID;
  relationship_type : RelationshipType;
  identifying : bool;
  cardinality_source : option string;
  cardinality_target : option string;
  verbalize_source_to_target : option string;
  verbalize_target_to_source : option string;
  metadata : JSON;
  attribute_mappings : list RelationshipAttributeMappingCreate.t
}.
End RelationshipCreate.

Module Service.
Import Py Session Cloner.

#[local] Open Scope session_scope.

(** [get_entity_by_id(db, entity_id, user_id)] *)
Definition get_entity_by_id (entity_id : UUID) (user_id : option UUID)
  : M Entity.t :=
  st <- get ;;
  match find (fun e => N.eqb (Entity.id e) entity_id) (entities st) with
  | None =>
      raise (HTTPException 404
               ("Entity with ID " +:+ str_int (Z.of_N entity_id) +:+ " not found"))
  | Some entity =>
      match user_id with
      | Some u =>
          get_data_model_by_id (Entity.data_model_id entity) (Some u) ;;;
          ret entity
      | None => ret entity
      end
  end.

(** [get_attribute_by_id(db, attribute_id, user_id)] *)
Definition get_attribute_by_id (attribute_id : UUID) (user_id : option UUID)
  : M Attribute.t :=
  st <- get ;;
  match find (fun a => N.eqb (Attribute.id a) attribute_id) (attributes st) with
  | None =>
      raise (HTTPException 404
               ("Attribute with ID " +:+ str_int (Z.of_N attribute_id)
                +:+ " not found"))
  | Some attribute =>
      match user_id with
      | Some u =>
          get_entity_by_id (Attribute.entity_id attribute) (Some u) ;;;
          ret attribute
      | None => ret attribute
      end
  end.

(** [get_relationship_by_id(db, relationship_id, user_id)] *)
Definition get_relationship_by_id (relationship_id : UUID)
    (user_id : option UUID) : M Relationship.t :=
  st <- get ;;
  match find (fun r => N.eqb (Relationship.id r) relationship_id)
             (relationships st) with
  | None =>
      raise (HTTPException 404
               ("Relationship with ID " +:+ str_int (Z.of_N relationship_id)
                +:+ " not found"))
  | Some relationship =>
      match user_id with
      | Some u =>
          get_data_model_by_id (Relationship.data_model_id relationship) (Some u) ;;;
          ret relationship
      | None => ret relationship
      end
  end.

(** The loop of [create_relationship] over
    [relationship_data.attribute_mappings]. *)
Definition create_mappings (relationship_data : RelationshipCreate.t)
    (relationship : Relationship.t) (user_id : UUID) : M unit :=
  for_each (RelationshipCreate.attribute_mappings relationship_data) tt
    (fun _ mapping_data =>
       let source_id :=
         RelationshipAttributeMappingCreate.source_attribute_id mapping_data in
       let target_id :=
         RelationshipAttributeMappingCreate.target_attribute_id mapping_data in
       source_attr <- get_attribute_by_id source_id (Some user_id) ;;
       target_attr <- get_attribute_by_id target_id (Some user_id) ;;
       if negb (N.eqb (Attribute.entity_id source_attr)
                      (RelationshipCreate.source_entity_id relationship_data))
       then raise (HTTPException 400
                     ("Source attribute " +:+ str_int (Z.of_N source_id)
                      +:+ " does not belong to source entity"))
       else if negb (N.eqb (Attribute.entity_id target_attr)
                           (RelationshipCreate.target_entity_id relationship_data))
       then raise (HTTPException 400
                     ("Target attribute " +:+ str_int (Z.of_N target_id)
                      +:+ " does not belong to target entity"))
       else
         global "RelationshipAttributeMapping" ;;;
         add_mapping (fun id ts =>
           RelationshipAttribute.mk id ts ts (Relationship.id relationship)
                                    source_id target_id) ;;;
         ret tt).

(** [create_relationship(db, model_id, relationship_data, user_id)] up to
    and including [db.commit()]. *)
Definition create_relationship (model_id : UUID)
    (relationship_data : RelationshipCreate.t) (user_id : UUID)
  : M Relationship.t :=
  source_entity <-
    get_entity_by_id (RelationshipCreate.source_entity_id relationship_data)
                     (Some user_id) ;;
  target_entity <-
    get_entity_by_id (RelationshipCreate.target_entity_id relationship_data)
                     (Some user_id) ;;
  if negb (N.eqb (Entity.data_model_id source_entity) model_id)
     || negb (N.eqb (Entity.data_model_id target_entity) model_id)
  then raise (HTTPException 400
                "Source and target entities must belong to the same data model")
  else
    global "Relationship" ;;;
    relationship <- add_relationship (fun id ts =>
      Relationship.mk id ts ts
        (RelationshipCreate.name relationship_data)
        (RelationshipCreate.description relationship_data)
        (RelationshipCreate.relationship_type relationship_data)
        (RelationshipCreate.identifying relationship_data)
        (RelationshipCreate.cardinality_source relationship_data)
        (RelationshipCreate.cardinality_target relationship_data)
        (RelationshipCreate.verbalize_source_to_target relationship_data)
        (RelationshipCreate.verbalize_target_to_source relationship_data)
        (RelationshipCreate.metadata relationship_data)
        model_id
        (RelationshipCreate.source_entity_id relationship_data)
        (RelationshipCreate.target_entity_id relationship_data)) ;;
    create_mappings relationship_data relationship user_id ;;;
    ret relationship.

(** The [Relationship] row built from [relationship_dict], as it is
    flushed on the session [st]. *)
Definition new_relationship (model_id : UUID)
    (relationship_data : RelationshipCreate.t) (st : Store) : Relationship.t :=
  Relationship.mk (next_uuid st) (now st) (now st)
    (RelationshipCreate.name relationship_data)
    (RelationshipCreate.description relationship_data)
    (RelationshipCreate.relationship_type relationship_data)
    (RelationshipCreate.identifying relationship_data)
    (RelationshipCreate.cardinality_source relationship_data)
    (RelationshipCreate.cardinality_target relationship_data)
    (RelationshipCreate.verbalize_source_to_target relationship_data)
    (RelationshipCreate.verbalize_target_to_source relationship_data)
    (RelationshipCreate.metadata relationship_data)
    model_id
    (RelationshipCreate.source_entity_id relationship_data)
    (RelationshipCreate.target_entity_id relationship_data).

(** ** What a user may read *)

(** The project [p] lets the user [u] through [get_project_by_id]. *)
Definition readable_by (u : UUID) (p : Project.t) : Prop :=
  Project.is_public p = true \/ Project.owner_id p = u.

(** The rows on the way from an attribute up to its project. *)
Definition lineage (st : Store) (a : Attribute.t) (e : Entity.t)
    (m : DataModel.t) (p : Project.t) : Prop :=
  find (fun x => N.eqb (Entity.id x) (Attribute.entity_id a)) (entities st) = Some e
  /\ find (fun x => N.eqb (DataModel.id x) (Entity.data_model_id e))
          (data_models st) = Some m
  /\ find (fun x => N.eqb (Project.id x) (DataModel.project_id m))
          (projects st) = Some p.

End Service.

(* ================================================================== *)
(** * The copy that [create_version] makes, row by row                 *)
(* ================================================================== *)

Module Graph.
Import Session Cloner.

#[local] Open Scope N_scope.












(** The number of models flagged as latest version. *)
Definition latest_count (models : list DataModel.t) : nat :=
  length (List.filter DataModel.is_latest_version models).

(** The request to relate the two entities of the sample graph through
    one attribute mapping. *)
Definition places_request : RelationshipCreate.t :=
  RelationshipCreate.mk None None 30 31 ONE_TO_MANY false None None None None
                        PyVal.VNone
                        [RelationshipAttributeMappingCreate.mk 40 42].

End Graph.
(* ================================================================== *)
(** * Facts about version labels                                       *)
(* ================================================================== *)

Module VersionFacts.
Import Py Version.

#[local] Open Scope Z_scope.

Lemma digit_not_space c : is_digit c = true -> py_isspace c = false.
Proof.
  unfold is_digit, py_isspace. intros H.
  apply andb_true_iff in H as [H1 H2].
  apply Nat.leb_le in H1, H2.
  repeat match goal with
  | |- context [(?a <=? ?b)%nat] => destruct (Nat.leb_spec a b)
  | |- context [(?a =? ?b)%nat] => destruct (Nat.eqb_spec a b)
  end; simpl; try reflexivity; lia.
Qed.

Lemma digit_not_underscore c : is_digit c = true -> Ascii.eqb c "_" = false.
Proof.
  intros H. destruct (Ascii.eqb_spec c "_") as [->|]; [discriminate H | reflexivity].
Qed.

Lemma digit_not_dot c : is_digit c = true -> c <> "."%char.
Proof. intros H ->. discriminate H. Qed.

Lemma digit_not_newline c : is_digit c = true -> c <> ascii_of_nat 10.
Proof. intros H ->. discriminate H. Qed.

Lemma app_cons c (r t : string) : String c r +:+ t = String c (r +:+ t).
Proof. reflexivity. Qed.

Lemma app_nil_l (t : string) : EmptyString +:+ t = t.
Proof. reflexivity. Qed.

Lemma app_nil_r (s : string) : s +:+ EmptyString = s.
Proof.
  induction s as [|x s IH]; [reflexivity | now rewrite app_cons, IH].
Qed.

(** What [span_digits] returns: a split of the input into a run of digits
    and a rest that does not start with a digit. *)
Lemma span_digits_split s d t :
  span_digits s = (d, t) ->
  s = d +:+ t /\ all_digits d = true /\ no_digit_head t.
Proof.
  revert d t. induction s as [|c r IH]; simpl; intros d t H.
  - inversion H; subst. repeat split.
  - destruct (is_digit c) eqn:Hc.
    + destruct (span_digits r) as [d' t'] eqn:Hr.
      inversion H; subst. destruct (IH _ _ eq_refl) as (-> & Hd & Ht).
      rewrite app_cons. simpl. rewrite Hc, Hd. repeat split. exact Ht.
    + inversion H; subst. rewrite app_nil_l. simpl. rewrite Hc. repeat split.
Qed.

Lemma span_digits_app d t :
  all_digits d = true -> no_digit_head t -> span_digits (d +:+ t) = (d, t).
Proof.
  induction d as [|c d IH]; intros Hd Ht.
  - rewrite app_nil_l. destruct t as [|c r]; simpl in *; [reflexivity | now rewrite Ht].
  - simpl in Hd. apply andb_true_iff in Hd as [Hc Hd].
    rewrite app_cons. simpl. rewrite Hc, (IH Hd Ht). reflexivity.
Qed.

Lemma is_empty_false s : s <> EmptyString -> is_empty s = false.
Proof. destruct s; [congruence | reflexivity]. Qed.

Lemma is_empty_false_inv s : is_empty s = false -> s <> EmptyString.
Proof. destruct s; [discriminate | congruence]. Qed.

Lemma at_end_inv s : at_end s = true -> s = EmptyString \/ s = newline.
Proof.
  unfold at_end. destruct s as [|c r]; [now left |].
  change (is_empty (String c r)) with false. rewrite orb_false_l.
  intros H. right. now apply String.eqb_eq in H.
Qed.

Lemma re_match_semver_sound s a b c :
  re_match_semver s = Some (a, b, c) -> semver s a b c.
Proof.
  unfold re_match_semver.
  destruct (span_digits s) as [g1 r1] eqn:H1.
  destruct (is_empty g1) eqn:E1; [discriminate |].
  destruct r1 as [|x1 r1]; [discriminate |].
  destruct (Ascii.eqb_spec x1 ".") as [-> | Hx1];
    [| destruct x1 as [[] [] [] [] [] [] [] []]; try discriminate; now contradiction Hx1].
  destruct (span_digits r1) as [g2 r2] eqn:H2.
  destruct (is_empty g2) eqn:E2; [discriminate |].
  destruct r2 as [|x2 r2]; [discriminate |].
  destruct (Ascii.eqb_spec x2 ".") as [-> | Hx2];
    [| destruct x2 as [[] [] [] [] [] [] [] []]; try discriminate; now contradiction Hx2].
  destruct (span_digits r2) as [g3 r3] eqn:H3.
  destruct (is_empty g3) eqn:E3; [discriminate |].
  destruct (at_end r3) eqn:E; [| discriminate].
  intros [= <- <- <-].
  apply span_digits_split in H1 as (-> & D1 & _).
  apply span_digits_split in H2 as (-> & D2 & _).
  apply span_digits_split in H3 as (-> & D3 & _).
  apply is_empty_false_inv in E1, E2, E3.
  destruct (at_end_inv _ E) as [-> | ->].
  - rewrite app_nil_r. now apply semver_plain.
  - now apply semver_newline.
Qed.

Lemma re_match_semver_complete s a b c :
  semver s a b c -> re_match_semver s = Some (a, b, c).
Proof.
  assert (Hplain : forall a b c tl,
            digit_string a -> digit_string b -> digit_string c ->
            no_digit_head tl -> at_end tl = true ->
            re_match_semver (a +:+ "." +:+ b +:+ "." +:+ c +:+ tl)
            = Some (a, b, c)).
  { clear. intros a b c tl [Na Da] [Nb Db] [Nc Dc] Htl Hend.
    unfold re_match_semver.
    rewrite (span_digits_app a _ Da) by reflexivity.
    rewrite (is_empty_false _ Na). rewrite app_cons, app_nil_l.
    rewrite (span_digits_app b _ Db) by reflexivity.
    rewrite (is_empty_false _ Nb). rewrite app_cons, app_nil_l.
    rewrite (span_digits_app c _ Dc Htl).
    rewrite (is_empty_false _ Nc), Hend. reflexivity. }
  intros H. destruct H as [a b c Ha Hb Hc | a b c Ha Hb Hc].
  - specialize (Hplain a b c EmptyString Ha Hb Hc I eq_refl).
    now rewrite app_nil_r in Hplain.
  - apply Hplain; auto. reflexivity.
Qed.

Lemma scan_int_digits s acc :
  all_digits s = true -> scan_int s acc = Some (dec_value_from acc s, EmptyString).
Proof.
  revert acc. induction s as [|c r IH]; simpl; intros acc H; [reflexivity |].
  apply andb_true_iff in H as [Hc Hr]. rewrite Hc. now apply IH.
Qed.

Lemma digit_not_sign c r :
  is_digit c = true ->
  match String c r with
  | String "+" r' => (1, r')
  | String "-" r' => (-1, r')
  | _ => (1, String c r)
  end = (1, String c r).
Proof.
  destruct c as [[] [] [] [] [] [] [] []]; intros H; try discriminate H; reflexivity.
Qed.

(** On a run of digits [int()] cannot fail and returns its value. *)
Lemma py_int_digits s : digit_string s -> py_int s = Some (dec_value s).
Proof.
  intros [Hne Hd]. destruct s as [|c r]; [congruence |].
  simpl in Hd. apply andb_true_iff in Hd as [Hc Hr].
  unfold py_int. simpl lstrip. rewrite (digit_not_space _ Hc).
  rewrite (digit_not_sign c r Hc). rewrite Hc.
  rewrite (scan_int_digits r _ Hr). simpl all_space. cbv iota beta.
  unfold dec_value. simpl dec_value_from.
  f_equal. destruct (dec_value_from _ r); reflexivity.
Qed.

Lemma int_digits s : digit_string s -> int_ s = inr (dec_value s).
Proof. intros H. unfold int_. now rewrite (py_int_digits s H). Qed.


End VersionFacts.

(* ================================================================== *)
(** * Facts about counting and ranking values                          *)
(* ================================================================== *)

Module HashingFacts.
Import Pandas.

Section Ranking.
Context {K : Type} `{EqDecision K}.

Implicit Types (k : K) (vals : list K) (tbl : list (K * nat)).

(** *** Occurrences and first positions *)

Lemma occurrences_app k l1 l2 :
  occurrences k (l1 ++ l2) = (occurrences k l1 + occurrences k l2)%nat.
Proof.
  induction l1 as [|x l1 IH]; simpl; [reflexivity |].
  destruct (bool_decide (k = x)); simpl; now rewrite IH.
Qed.

Lemma occurrences_pos k l : In k l <-> (0 < occurrences k l)%nat.
Proof.
  induction l as [|x l IH]; simpl; [split; [tauto | lia] |].
  destruct (bool_decide_reflect (k = x)) as [-> | Hne].
  - split; [lia | auto].
  - rewrite <- IH. split; [intros [Hx | Hin]; congruence | auto].
Qed.

Lemma first_index_lt k l : In k l -> (first_index k l < length l)%nat.
Proof.
  induction l as [|x l IH]; simpl; [tauto |].
  intros Hin. destruct (bool_decide_reflect (k = x)) as [-> | Hne]; [lia |].
  destruct Hin as [-> | Hin]; [congruence |]. specialize (IH Hin). lia.
Qed.

Lemma first_index_app_in k l1 l2 :
  In k l1 -> first_index k (l1 ++ l2) = first_index k l1.
Proof.
  induction l1 as [|x l1 IH]; simpl; [tauto |].
  intros Hin. destruct (bool_decide_reflect (k = x)) as [-> | Hne]; [reflexivity |].
  destruct Hin as [-> | Hin]; [congruence |]. now rewrite IH.
Qed.

Lemma first_index_app_new k l :
  ~ In k l -> first_index k (l ++ [k]) = length l.
Proof.
  induction l as [|x l IH]; simpl; intros Hn.
  - now rewrite bool_decide_eq_true_2.
  - destruct (bool_decide_reflect (k = x)) as [-> | Hne]; [tauto |].
    rewrite IH; tauto.
Qed.

(** *** Sorted lists grown at the end, and their prefixes *)

Lemma sorted_snoc {A} (R : A -> A -> Prop) (l : list A) (x : A) :
  StronglySorted R l -> Forall (fun y => R y x) l ->
  StronglySorted R (l ++ [x]).
Proof.
  induction 1 as [|y l Hs IH Hy]; simpl; intros Hall.
  - repeat constructor.
  - inversion Hall; subst. constructor; [auto |].
    apply List.Forall_app. split; [assumption | repeat constructor; assumption].
Qed.




Lemma sorted_ext {A} (R R' : A -> A -> Prop) (l : list A) :
  (forall a b, In a l -> In b l -> R a b -> R' a b) ->
  StronglySorted R l -> StronglySorted R' l.
Proof.
  intros Himp Hs. induction Hs as [|x l Hs IH Hx]; constructor.
  - apply IH. intros a b Ha Hb. apply Himp; now right.
  - rewrite List.Forall_forall in *. intros b Hb.
    apply Himp; [now left | now right | auto].
Qed.


(** *** The counting table *)

Lemma value_count_snoc vals k :
  value_count (vals ++ [k]) = bump k (value_count vals).
Proof. unfold value_count. now rewrite fold_left_app. Qed.

Lemma bump_new k tbl :
  ~ In k (map fst tbl) -> bump k tbl = tbl ++ [(k, 1%nat)].
Proof.
  induction tbl as [|[k0 c0] tbl IH]; simpl; intros Hn; [reflexivity |].
  destruct (bool_decide_reflect (k = k0)) as [-> | Hne]; [tauto |].
  rewrite IH; tauto.
Qed.

Lemma bump_keys k tbl :
  In k (map fst tbl) -> map fst (bump k tbl) = map fst tbl.
Proof.
  induction tbl as [|[k0 c0] tbl IH]; simpl; [tauto |].
  intros Hin. destruct (bool_decide_reflect (k = k0)) as [-> | Hne]; [reflexivity |].
  simpl. rewrite IH; [reflexivity |]. destruct Hin; [congruence | assumption].
Qed.

Lemma bump_entries k c tbl :
  List.NoDup (map fst tbl) -> In (k, c) tbl ->
  forall k' c',
    In (k', c') (bump k tbl)
    <-> (k' = k /\ c' = S c) \/ (k' <> k /\ In (k', c') tbl).
Proof.
  induction tbl as [|[k0 c0] tbl IH]; simpl; [tauto |].
  intros Hnd Hin k' c'. inversion Hnd as [|? ? Hnotin Hnd']; subst.
  destruct (bool_decide_reflect (k = k0)) as [-> | Hne].
  - assert (c = c0) as ->.
    { destruct Hin as [[= ->] | Hin]; [reflexivity |].
      exfalso. apply Hnotin. now apply (in_map fst) in Hin. }
    simpl. split.
    + intros [[= <- <-] | Hin']; [now left |].
      right. split; [| now right].
      intros ->. apply Hnotin. now apply (in_map fst) in Hin'.
    + intros [[-> ->] | [Hk [[= -> ->] | Hin']]]; [now left | congruence | now right].
  - assert (In (k, c) tbl) as Hin' by (destruct Hin as [[= -> ->] | ?]; congruence).
    specialize (IH Hnd' Hin' k' c'). simpl. rewrite IH. split.
    + intros [[= <- <-] | [? | [? ?]]]; [right; split; [congruence | now left] | now left |].
      right. split; [assumption | now right].
    + intros [? | [Hk [[= <- <-] | ?]]]; [right; now left | now left |].
      right. right. auto.
Qed.

Lemma counted_key vals tbl k :
  counted vals tbl -> (In k (map fst tbl) <-> In k vals).
Proof.
  intros (_ & He & _). split.
  - intros Hin. apply in_map_iff in Hin as ([k0 c0] & <- & Hin).
    now apply He in Hin.
  - intros Hin. apply in_map_iff. exists (k, occurrences k vals).
    split; [reflexivity |]. apply He. auto.
Qed.

Lemma counted_step vals tbl k :
  counted vals tbl -> counted (vals ++ [k]) (bump k tbl).
Proof.
  intros Hc. pose proof (counted_key vals tbl k Hc) as Hkey.
  destruct Hc as (Hnd & He & Hs).
  assert (Hocc : forall k', occurrences k' (vals ++ [k])
                 = (occurrences k' vals + (if bool_decide (k' = k) then 1 else 0))%nat).
  { intros k'. rewrite occurrences_app. simpl.
    destruct (bool_decide (k' = k)); reflexivity. }
  destruct (in_dec (fun x y => decide (x = y)) k vals) as [Hin | Hnin].
  - (* [k] has been seen: its counter goes up, nothing moves *)
    assert (Hk : In k (map fst tbl)) by now apply Hkey.
    assert (Hkc : In (k, occurrences k vals) tbl) by (apply He; auto).
    split; [now rewrite bump_keys |]. split.
    + intros k' c'. rewrite (bump_entries k _ tbl Hnd Hkc), He, in_app_iff, Hocc.
      simpl. destruct (bool_decide_reflect (k' = k)) as [-> | Hne].
      * split; [intros [[_ ->] | [? _]]; [split; [auto | lia] | congruence] |].
        intros [_ ->]. left. split; [reflexivity | lia].
      * split; [intros [[? _] | [_ [? ->]]]; [congruence | split; [auto | lia]] |].
        intros [[? | [? | []]] ->]; [| congruence].
        right. split; [assumption |]. split; [assumption | lia].
    + rewrite bump_keys by assumption.
      eapply sorted_ext; [| exact Hs]. intros a b Ha Hb Hab. simpl in Hab.
      apply in_map_iff in Ha as ([a0 ca] & <- & Ha), Hb as ([b0 cb] & <- & Hb).
      apply He in Ha as [Ha _], Hb as [Hb _]. simpl in *.
      now rewrite !first_index_app_in.
  - (* [k] is new: it enters at the end with count one *)
    assert (Hk : ~ In k (map fst tbl)) by now rewrite Hkey.
    rewrite (bump_new k tbl Hk). split; [| split].
    + rewrite map_app. simpl.
      apply List.NoDup_app;
        [assumption | repeat constructor; simpl; tauto
         | intros x Hx [<- | []]; auto].
    + intros k' c'. rewrite !in_app_iff, He, Hocc. simpl.
      destruct (bool_decide_reflect (k' = k)) as [-> | Hne].
      * assert (occurrences k vals = 0%nat) as ->.
        { destruct (occurrences k vals) eqn:E; [reflexivity |].
          exfalso. apply Hnin. apply occurrences_pos. lia. }
        split; [intros [[? _] | [[= <-] | []]]; [tauto | auto] |].
        intros [_ ->]. right. now left.
      * split; [intros [[? ->] | [[= <- _] | []]]; [split; [auto | lia] | congruence] |].
        intros [[? | [? | []]] ->]; [| congruence]. left. split; [assumption | lia].
    + rewrite map_app. simpl. apply sorted_snoc.
      * eapply sorted_ext; [| exact Hs]. intros a b Ha Hb Hab. simpl in Hab.
        apply in_map_iff in Ha as ([a0 ca] & <- & Ha), Hb as ([b0 cb] & <- & Hb).
        apply He in Ha as [Ha _], Hb as [Hb _]. simpl in *.
        now rewrite !first_index_app_in.
      * apply List.Forall_forall. intros a Ha.
        apply in_map_iff in Ha as ([a0 ca] & <- & Ha). apply He in Ha as [Ha _].
        simpl. rewrite first_index_app_in, first_index_app_new by assumption.
        now apply first_index_lt.
Qed.

Lemma value_count_counted vals : counted vals (value_count vals).
Proof.
  induction vals as [|k vals IH] using rev_ind.
  - split; [constructor |]. split; [intros k c; simpl; tauto | constructor].
  - rewrite value_count_snoc. now apply counted_step.
Qed.

(** *** Sorting by count *)







(** *** The frequency table of a column, ranked *)

Lemma counted_length vals tbl :
  counted vals tbl ->
  length tbl = length (nodup (fun x y => decide (x = y)) vals).
Proof.
  intros Hc. rewrite <- (length_map fst).
  apply Permutation_length, Permutation.NoDup_Permutation.
  - exact (proj1 Hc).
  - apply NoDup_nodup.
  - intros k. rewrite nodup_In. now apply counted_key.
Qed.


(** *** The ranking leaves no choice *)






End Ranking.
End HashingFacts.

(* ================================================================== *)
(** * Facts about schema inference and profiling                       *)
(* ================================================================== *)

Module ProfilerFacts.
Import Py PyVal Float64 Pandas Profiler Spec HashingFacts.

#[local] Open Scope Z_scope.

(** ** Dictionaries *)

Lemma dict_get_set_eq d k v : dict_get (dict_set d k v) k = Some v.
Proof.
  induction d as [|[k' v'] d IH]; simpl.
  - now rewrite String.eqb_refl.
  - destruct (String.eqb k k') eqn:E; simpl; rewrite E; [reflexivity | exact IH].
Qed.

Lemma dict_get_set_ne d k k' v :
  k <> k' -> dict_get (dict_set d k v) k' = dict_get d k'.
Proof.
  intros Hne. induction d as [|[k0 v0] d IH]; simpl.
  - destruct (String.eqb_spec k' k); [congruence | reflexivity].
  - destruct (String.eqb_spec k k0) as [-> | Hk]; simpl.
    + destruct (String.eqb_spec k' k0); [congruence | reflexivity].
    + destruct (String.eqb_spec k' k0); [reflexivity | exact IH].
Qed.

Lemma dict_set_new d k v : ~ In k (keys d) -> dict_set d k v = d ++ [(k, v)].
Proof.
  induction d as [|[k' v'] d IH]; simpl; intros Hn; [reflexivity |].
  destruct (String.eqb_spec k k') as [-> | Hk]; [tauto |].
  rewrite IH; tauto.
Qed.

(** A loop of assignments under distinct new keys appends the entries in
    the order of the loop. *)
Lemma assignments_append {A} (key : A -> string) (val : A -> pyval)
    (items : list A) (d0 : dict) :
  List.NoDup (map key items) ->
  (forall x, In x items -> ~ In (key x) (keys d0)) ->
  fold_left (fun d x => dict_set d (key x) (val x)) items d0
  = d0 ++ map (fun x => (key x, val x)) items.
Proof.
  revert d0. induction items as [|x items IH]; simpl; intros d0 Hnd Hfresh.
  - now rewrite app_nil_r.
  - inversion Hnd as [|? ? Hx Hnd']; subst.
    rewrite dict_set_new by (apply Hfresh; now left).
    rewrite IH; [now rewrite <- app_assoc | assumption |].
    intros y Hy. unfold keys. rewrite map_app, in_app_iff. simpl.
    intros [Hin | [Heq | []]].
    + apply (Hfresh y); [now right | exact Hin].
    + apply Hx. rewrite Heq. now apply in_map.
Qed.

(** A loop of assignments under distinct keys leaves, under each key, the
    value assigned for it. *)
Lemma assignments_lookup {A} (key : A -> string) (val : A -> pyval)
    (items : list A) (d0 : dict) (x : A) :
  List.NoDup (map key items) -> In x items ->
  dict_get (fold_left (fun d y => dict_set d (key y) (val y)) items d0) (key x)
  = Some (val x).
Proof.
  assert (Hkeep : forall items d0 k,
             ~ In k (map key items) ->
             dict_get (fold_left (fun d y => dict_set d (key y) (val y)) items d0) k
             = dict_get d0 k).
  { clear. induction items as [|y items IH]; simpl; intros d0 k Hn; [reflexivity |].
    rewrite IH by tauto. apply dict_get_set_ne. intros Heq. apply Hn. now left. }
  revert d0. induction items as [|y items IH]; simpl; intros d0 Hnd Hin; [tauto |].
  inversion Hnd as [|? ? Hy Hnd']; subst.
  destruct Hin as [-> | Hin].
  - rewrite Hkeep by assumption. apply dict_get_set_eq.
  - now apply IH.
Qed.

(** ** Missing cells *)

Lemma all_isnull_dropna s : all (isnull s) = true <-> dropna s = [].
Proof.
  unfold all, isnull, dropna. induction (cells s) as [|[v|] l IH]; simpl.
  - tauto.
  - split; discriminate.
  - exact IH.
Qed.

Lemma count_non_missing s : count s = non_missing_count s.
Proof.
  unfold count, non_missing_count, dropna. f_equal.
  induction (cells s) as [|[v|] l IH]; simpl; [reflexivity | now rewrite IH | exact IH].
Qed.

Lemma sum_bool_from l acc :
  fold_left (fun (a : Z) (b : bool) => if b then a + 1 else a) l acc
  = acc + Z.of_nat (length (List.filter (fun b => b) l)).
Proof.
  revert acc. induction l as [|[] l IH]; simpl; intros acc.
  - lia.
  - rewrite IH. lia.
  - now rewrite IH.
Qed.

Lemma isnull_sum_missing s : sum_bool (isnull s) = missing_count s.
Proof.
  unfold sum_bool, missing_count, isnull. rewrite sum_bool_from.
  rewrite Z.add_0_l. do 2 f_equal.
  induction (cells s) as [|c l IH]; simpl; [reflexivity |].
  destruct (is_missing c); simpl; now rewrite IH.
Qed.

Lemma nunique_distinct s : nunique s = unique_value_count s.
Proof.
  unfold nunique, unique_value_count. f_equal.
  apply counted_length, value_count_counted.
Qed.

(** ** Percentages *)

Lemma percentage_quotient round1 n total :
  percentage round1 n total = quotient_percentage round1 n total.
Proof.
  unfold percentage, quotient_percentage. destruct total as [|t]; [reflexivity |].
  now replace (0 <? Z.of_nat (S t)) with true by (symmetry; apply Z.ltb_lt; lia).
Qed.

(** ** The entries of the two per-column dictionaries *)

Lemma schema_entries col s :
  let schema := column_schema col s in
  dict_get schema "data_type" = Some (VStr (type_name s))
  /\ dict_get schema "nullable" = Some (VBool (any (isnull s)))
  /\ dict_get schema "unique_values" = Some (VInt (nunique s))
  /\ dict_get schema "missing_count" = Some (VInt (sum_bool (isnull s)))
  /\ dict_get schema "min_value"
     = Some (if str_in (type_name s) ["INTEGER"; "FLOAT"; "TIMESTAMP"]
             then min_or_none s else VNone)
  /\ dict_get schema "max_value"
     = Some (if str_in (type_name s) ["INTEGER"; "FLOAT"; "TIMESTAMP"]
             then max_or_none s else VNone)
  /\ dict_get schema "avg_value"
     = Some (if str_in (type_name s) ["INTEGER"; "FLOAT"]
             then mean_or_none s else VNone).
Proof. destruct s; repeat split; reflexivity. Qed.

Lemma profile_entries total_rows s :
  let col_profile := column_profile total_rows s in
  dict_get col_profile "type" = Some (VStr (type_name s))
  /\ dict_get col_profile "completeness"
     = Some (percentage np_round1 (count s) total_rows)
  /\ dict_get col_profile "uniqueness"
     = Some (percentage py_round1 (nunique s) total_rows).
Proof.
  destruct s; unfold column_profile; simpl type_name; simpl str_in; cbv iota;
    try (repeat split; reflexivity);
    destruct (negb _); repeat split; reflexivity.
Qed.

Lemma varchar_inv s :
  type_name s = "VARCHAR" -> (exists vs, s = bool_ vs) \/ (exists vs, s = object_ vs).
Proof. destruct s; try discriminate; eauto. Qed.

Lemma profile_columns_lookup df col s :
  List.NoDup (map fst (data df)) -> In (col, s) (data df) ->
  dict_get (profile_columns df) col = Some (VDict (column_profile (nrows df) s)).
Proof.
  intros Hnd Hin. unfold profile_columns.
  exact (assignments_lookup fst
           (fun c => VDict (column_profile (nrows df) (snd c)))
           (data df) [] (col, s) Hnd Hin).
Qed.




Lemma any_of_all l : all l = true -> any l = negb (Nat.eqb (length l) 0).
Proof.
  unfold all, any. destruct l as [|b l]; simpl; [reflexivity |].
  intros H. apply andb_true_iff in H as [-> _]. reflexivity.
Qed.

(** ** The column [1, 2, 2, null] *)

(** C2, as stated, fails on the code: the column is not typed INTEGER, its
    extrema are not printed as "1" and "2", and its mean is not 1.5. *)
Lemma column_1_2_2_null_not_as_stated :
  ~ stated_for_1_2_2_null (column_schema "x" column_1_2_2_null)
                          (column_profile 4 column_1_2_2_null)
  /\ dict_get (column_schema "x" column_1_2_2_null) "data_type"
     <> Some (VStr "INTEGER")
  /\ dict_get (column_schema "x" column_1_2_2_null) "min_value"
     <> Some (VStr "1")
  /\ dict_get (column_schema "x" column_1_2_2_null) "avg_value"
     <> Some (VFloat (of_ratio 3 2)).
Proof.
  split; [intros (H & _); vm_compute in H; discriminate H |].
  repeat split; vm_compute; discriminate.
Qed.

(** C2, amended.  The column [1, 2, 2, null] is typed FLOAT with
    nullable = true, missing_count = 1, unique_value_count = 2,
    min = "1.0", max = "2.0", mean = 5/3 (the double 1.6666666666666667),
    completeness = 75.0 and uniqueness = 50.0. *)
Theorem column_1_2_2_null_inferred :
  dict_get (column_schema "x" column_1_2_2_null) "data_type" = Some (VStr "FLOAT")
  /\ dict_get (column_schema "x" column_1_2_2_null) "nullable" = Some (VBool true)
  /\ dict_get (column_schema "x" column_1_2_2_null) "missing_count" = Some (VInt 1)
  /\ dict_get (column_schema "x" column_1_2_2_null) "unique_values" = Some (VInt 2)
  /\ dict_get (column_schema "x" column_1_2_2_null) "min_value" = Some (VStr "1.0")
  /\ dict_get (column_schema "x" column_1_2_2_null) "max_value" = Some (VStr "2.0")
  /\ dict_get (column_schema "x" column_1_2_2_null) "avg_value"
     = Some (VFloat (div (of_int 5) (of_int 3)))
  /\ repr (div (of_int 5) (of_int 3)) = "1.6666666666666667"
  /\ dict_get (column_profile 4 column_1_2_2_null) "type" = Some (VStr "FLOAT")
  /\ dict_get (column_profile 4 column_1_2_2_null) "min" = Some (VStr "1.0")
  /\ dict_get (column_profile 4 column_1_2_2_null) "max" = Some (VStr "2.0")
  /\ dict_get (column_profile 4 column_1_2_2_null) "completeness"
     = Some (VFloat (of_int 75))
  /\ dict_get (column_profile 4 column_1_2_2_null) "uniqueness"
     = Some (VFloat (of_int 50)).
Proof. repeat split; vm_compute; reflexivity. Qed.

(** ** Columns without a non-missing cell *)

(** C3, as stated, fails on the code: an all-missing float64 column is
    typed FLOAT, and a column without rows is not nullable. *)
Lemma all_missing_not_as_stated :
  all (isnull column_one_nan) = true
  /\ ~ stated_for_all_missing (column_schema "c" column_one_nan)
  /\ dict_get (column_schema "c" column_one_nan) "data_type" = Some (VStr "FLOAT")
  /\ all (isnull column_no_rows) = true
  /\ ~ stated_for_all_missing (column_schema "c" column_no_rows)
  /\ dict_get (column_schema "c" column_no_rows) "nullable" = Some (VBool false).
Proof.
  split; [reflexivity |].
  split; [intros (H & _); vm_compute in H; discriminate H |].
  split; [reflexivity |]. split; [reflexivity |].
  split; [intros (_ & H & _); vm_compute in H; discriminate H | reflexivity].
Qed.

(** C3, amended.  For every column whose cells are all missing, min, max
    and mean are None and unique_value_count is 0; nullable is true exactly
    when the column has a row; the type is the one of the dtype: VARCHAR
    for a text or boolean column, FLOAT for float64, TIMESTAMP for
    datetime64, INTEGER for int64. *)
Theorem all_missing_column_schema (col : string) (s : Series) :
  all (isnull s) = true ->
  dict_get (column_schema col s) "min_value" = Some VNone
  /\ dict_get (column_schema col s) "max_value" = Some VNone
  /\ dict_get (column_schema col s) "avg_value" = Some VNone
  /\ dict_get (column_schema col s) "unique_values" = Some (VInt 0)
  /\ dict_get (column_schema col s) "nullable"
     = Some (VBool (negb (Nat.eqb (length (cells s)) 0)))
  /\ dict_get (column_schema col s) "data_type"
     = Some (VStr match dtype s with
                  | Int64 => "INTEGER"
                  | Float64 => "FLOAT"
                  | Datetime64 => "TIMESTAMP"
                  | Bool | Object => "VARCHAR"
                  end).
Proof.
  intros Hall.
  destruct (schema_entries col s) as (Hty & Hnull & Huniq & _ & Hmin & Hmax & Havg).
  assert (Hdrop : dropna s = []) by now apply all_isnull_dropna.
  repeat split.
  - rewrite Hmin. unfold min_or_none. rewrite Hall. now destruct s.
  - rewrite Hmax. unfold max_or_none. rewrite Hall. now destruct s.
  - rewrite Havg. unfold mean_or_none. rewrite Hall. now destruct s.
  - rewrite Huniq. unfold nunique, hash_keys. now rewrite Hdrop.
  - rewrite Hnull. rewrite (any_of_all _ Hall). unfold isnull.
    now rewrite length_map.
  - rewrite Hty. now destruct s.
Qed.

Lemma all_missing_column_schema_witness :
  all (isnull column_one_nan) = true
  /\ dict_get (column_schema "c" column_one_nan) "min_value" = Some VNone.
Proof.
  split; [reflexivity |].
  exact (proj1 (all_missing_column_schema "c" column_one_nan eq_refl)).
Defined.

(** ** Completeness and uniqueness *)

(** C5, as stated, fails on the code: with 23 non-missing cells in 80
    rows the code computes (23 / 80) * 100 = 28.749999999999996 and rounds
    it to 28.7, where round(100 * 23 / 80, 1) = round(28.75, 1) is 28.8. *)
Lemma percentages_not_as_stated :
  ~ stated_percentages frame_23_of_80 "x" column_23_of_80
  /\ non_missing_count column_23_of_80 = 23
  /\ dict_get (column_profile 80 column_23_of_80) "completeness"
     = Some (VFloat (of_ratio 287 10))
  /\ stated_percentage 23 80 = VFloat (of_ratio 288 10)
  /\ repr (mul (div (of_int 23) (of_int 80)) (of_int 100)) = "28.749999999999996"
  /\ repr (of_ratio 287 10) = "28.7"
  /\ repr (of_ratio 288 10) = "28.8".
Proof.
  split; [| repeat split; vm_compute; reflexivity].
  intros (columns & col_profile & Hc & Hp & Hcompleteness & _).
  vm_compute in Hc. injection Hc as <-.
  vm_compute in Hp. injection Hp as <-.
  vm_compute in Hcompleteness. discriminate Hcompleteness.
Qed.

(** C5, amended.  In the profile of every frame with distinct column
    labels, each column's completeness is
    round((non_missing_count / rows) * 100, 1) and its uniqueness is
    round((unique_value_count / rows) * 100, 1), the quotient being taken
    first and every step rounded to a double (with numpy's [round] for
    completeness and the built-in one for uniqueness); both are 100 when
    the frame has no rows. *)
Theorem profile_completeness_uniqueness (df : DataFrame) (col : string) (s : Series) :
  List.NoDup (map fst (data df)) -> In (col, s) (data df) ->
  exists columns col_profile,
    dict_get (get_profiling_data df) "columns" = Some (VDict columns)
    /\ dict_get columns col = Some (VDict col_profile)
    /\ dict_get col_profile "completeness"
       = Some (quotient_percentage np_round1 (non_missing_count s) (nrows df))
    /\ dict_get col_profile "uniqueness"
       = Some (quotient_percentage py_round1 (unique_value_count s) (nrows df))
    /\ quotient_percentage np_round1 (non_missing_count s) 0 = VInt 100
    /\ quotient_percentage py_round1 (unique_value_count s) 0 = VInt 100.
Proof.
  intros Hnd Hin.
  exists (profile_columns df), (column_profile (nrows df) s).
  destruct (profile_entries (nrows df) s) as (_ & Hc & Hu).
  split; [reflexivity |].
  split; [now apply profile_columns_lookup |].
  split; [now rewrite Hc, percentage_quotient, count_non_missing |].
  split; [now rewrite Hu, percentage_quotient, nunique_distinct |].
  split; reflexivity.
Qed.

Lemma profile_completeness_uniqueness_witness :
  List.NoDup (map fst (data frame_23_of_80))
  /\ In ("x", column_23_of_80) (data frame_23_of_80)
  /\ exists columns col_profile,
       dict_get (get_profiling_data frame_23_of_80) "columns"
       = Some (VDict columns)
       /\ dict_get columns "x" = Some (VDict col_profile)
       /\ dict_get col_profile "completeness"
          = Some (quotient_percentage np_round1
                    (non_missing_count column_23_of_80) 80).
Proof.
  assert (Hnd : List.NoDup (map fst (data frame_23_of_80))).
  { simpl. repeat constructor; simpl; intuition discriminate. }
  assert (Hin : In ("x", column_23_of_80) (data frame_23_of_80)).
  { simpl. left. reflexivity. }
  split; [exact Hnd |]. split; [exact Hin |].
  destruct (profile_completeness_uniqueness frame_23_of_80 "x" _ Hnd Hin)
    as (columns & col_profile & H1 & H2 & H3 & _).
  exists columns, col_profile. auto.
Defined.

(** ** Text columns *)




(** C10.  In the profile of every frame with distinct column labels, the
    record of a VARCHAR column whose cells are all missing has exactly the
    keys type, completeness and uniqueness: no top_values, min or max. *)
Theorem all_missing_varchar_profile (df : DataFrame) (col : string) (s : Series) :
  List.NoDup (map fst (data df)) -> In (col, s) (data df) ->
  type_name s = "VARCHAR" -> all (isnull s) = true ->
  exists col_profile,
    dict_get (profile_columns df) col = Some (VDict col_profile)
    /\ keys col_profile = ["type"; "completeness"; "uniqueness"]
    /\ dict_get col_profile "top_values" = None
    /\ dict_get col_profile "min" = None
    /\ dict_get col_profile "max" = None.
Proof.
  intros Hnd Hin Hty Hall. exists (column_profile (nrows df) s).
  split; [now apply profile_columns_lookup |].
  destruct (varchar_inv s Hty) as [[vs ->] | [vs ->]];
    unfold column_profile; simpl type_name; simpl str_in; cbv iota;
    rewrite Hall; repeat split; reflexivity.
Qed.

Lemma all_missing_varchar_profile_witness :
  exists col_profile,
    dict_get (profile_columns frame_with_empty_text) "note" = Some (VDict col_profile)
    /\ keys col_profile = ["type"; "completeness"; "uniqueness"].
Proof.
  assert (Hnd : List.NoDup (map fst (data frame_with_empty_text))).
  { simpl. repeat constructor; simpl; intuition discriminate. }
  assert (Hin : In ("note", object_ [None; None]) (data frame_with_empty_text)).
  { simpl. right. left. reflexivity. }
  destruct (all_missing_varchar_profile frame_with_empty_text "note" _ Hnd Hin
              eq_refl eq_refl) as (col_profile & H1 & H2 & _).
  exists col_profile. auto.
Defined.

(** ** Determinism *)


End ProfilerFacts.

(* ================================================================== *)
(** * Facts about the import route                                     *)
(* ================================================================== *)

Module ImporterFacts.
Import Py PyVal Pandas Profiler Importer Spec.

Section Route.
Variable secure_filename : string -> string.
Variables read_csv read_json read_excel : string -> Exception + DataFrame.
Variable json_dumps : list dict -> Exception + string.
Variable uuid4 : nat -> string.
Variable isoformat : nat -> string.
Variable upload_path : string -> string.


End Route.


End ImporterFacts.

(* ================================================================== *)
(** * Facts about model versioning                                     *)
(* ================================================================== *)

Module ClonerFacts.
Import Py PyVal Session Cloner SpecGraph.

#[local] Open Scope N_scope.

(** ** Stepping through a unit of work *)

Lemma bind_inr {A B} (c : M A) (k : A -> M B) st r st' :
  bind c k st = inr (r, st') ->
  exists x st1, c st = inr (x, st1) /\ k x st1 = inr (r, st').
Proof.
  unfold bind. destruct (c st) as [e | [x st1]]; [discriminate |]. eauto.
Qed.

Ltac step H :=
  let x := fresh "x" in
  let st := fresh "st" in
  let H1 := fresh "Hstep" in
  apply bind_inr in H as (x & st & H1 & H).

Lemma for_each_preserves {A B} (P : Store -> Prop) (l : list A)
    (body : B -> A -> M B) :
  (forall acc x st r st', P st -> body acc x st = inr (r, st') -> P st') ->
  forall acc st r st',
    P st -> for_each l acc body st = inr (r, st') -> P st'.
Proof.
  intros Hbody. induction l as [|x l IH]; simpl; intros acc st r st' HP H.
  - injection H as _ <-. exact HP.
  - step H. eapply IH; [| exact H]. eapply Hbody; eauto.
Qed.

Lemma global_inr name st r st' : global name st = inr (r, st') -> st' = st.
Proof.
  unfold global. destruct (Profiler.str_in name module_globals);
    [intros [= _ <-]; reflexivity | discriminate].
Qed.

(** ** Copying entities, attributes and relationships leaves the table of
    data models alone *)

Lemma copy_attributes_models D attrs e m st r st' :
  same_models D st -> copy_attributes attrs e m st = inr (r, st') ->
  same_models D st'.
Proof.
  unfold copy_attributes. apply for_each_preserves.
  clear. intros acc a st r st' HP H.
  step H. apply global_inr in Hstep as ->.
  step H. injection H as _ <-.
  unfold add_attribute, bind, uuid4, get, put, ret in Hstep.
  injection Hstep as _ <-. exact HP.
Qed.

Lemma copy_entities_models D src new st r st' :
  same_models D st -> copy_entities src new st = inr (r, st') ->
  same_models D st'.
Proof.
  unfold copy_entities. intros HP H. step H.
  injection Hstep as <- <-. revert H. apply for_each_preserves; [| exact HP].
  clear. intros [emap amap] e st r st' HP H.
  step H. apply global_inr in Hstep as ->.
  step H. unfold add_entity, bind, uuid4, get, put, ret in Hstep.
  injection Hstep as <- <-.
  step H. injection Hstep as <- <-.
  step H. injection H as _ <-.
  eapply copy_attributes_models; [| exact Hstep]. exact HP.
Qed.

Lemma copy_mappings_models D maps rel m st r st' :
  same_models D st -> copy_mappings maps rel m st = inr (r, st') ->
  same_models D st'.
Proof.
  unfold copy_mappings. apply for_each_preserves.
  clear. intros acc a st r st' HP H.
  destruct (m !! _); [| injection H as _ <-; exact HP].
  destruct (m !! _); [| injection H as _ <-; exact HP].
  step H. discriminate Hstep.
Qed.

Lemma copy_relationships_models D src new emap amap st r st' :
  same_models D st -> copy_relationships src new emap amap st = inr (r, st') ->
  same_models D st'.
Proof.
  unfold copy_relationships. intros HP H. step H.
  injection Hstep as <- <-. revert H. apply for_each_preserves; [| exact HP].
  clear. intros acc rel st r st' HP H.
  destruct (emap !! _); [| injection H as _ <-; exact HP].
  destruct (emap !! _); [| injection H as _ <-; exact HP].
  step H. apply global_inr in Hstep as ->.
  step H. unfold add_relationship, bind, uuid4, get, put, ret in Hstep.
  injection Hstep as <- <-.
  step H. injection Hstep as <- <-.
  eapply copy_mappings_models; [| exact H]. exact HP.
Qed.

(** ** ... and, when they return, the table of attribute mappings *)

Lemma copy_attributes_mappings R attrs e m st r st' :
  same_mappings R st -> copy_attributes attrs e m st = inr (r, st') ->
  same_mappings R st'.
Proof.
  unfold copy_attributes. apply for_each_preserves.
  clear. intros acc a st r st' HP H.
  step H. apply global_inr in Hstep as ->.
  step H. injection H as _ <-.
  unfold add_attribute, bind, uuid4, get, put, ret in Hstep.
  injection Hstep as _ <-. exact HP.
Qed.

Lemma copy_entities_mappings R src new st r st' :
  same_mappings R st -> copy_entities src new st = inr (r, st') ->
  same_mappings R st'.
Proof.
  unfold copy_entities. intros HP H. step H.
  injection Hstep as <- <-. revert H. apply for_each_preserves; [| exact HP].
  clear. intros [emap amap] e st r st' HP H.
  step H. apply global_inr in Hstep as ->.
  step H. unfold add_entity, bind, uuid4, get, put, ret in Hstep.
  injection Hstep as <- <-.
  step H. injection Hstep as <- <-.
  step H. injection H as _ <-.
  eapply copy_attributes_mappings; [| exact Hstep]. exact HP.
Qed.

Lemma copy_mappings_mappings R maps rel m st r st' :
  same_mappings R st -> copy_mappings maps rel m st = inr (r, st') ->
  same_mappings R st'.
Proof.
  unfold copy_mappings. apply for_each_preserves.
  clear. intros acc a st r st' HP H.
  destruct (m !! _); [| injection H as _ <-; exact HP].
  destruct (m !! _); [| injection H as _ <-; exact HP].
  step H. discriminate Hstep.
Qed.

Lemma copy_relationships_mappings R src new emap amap st r st' :
  same_mappings R st -> copy_relationships src new emap amap st = inr (r, st') ->
  same_mappings R st'.
Proof.
  unfold copy_relationships. intros HP H. step H.
  injection Hstep as <- <-. revert H. apply for_each_preserves; [| exact HP].
  clear. intros acc rel st r st' HP H.
  destruct (emap !! _); [| injection H as _ <-; exact HP].
  destruct (emap !! _); [| injection H as _ <-; exact HP].
  step H. apply global_inr in Hstep as ->.
  step H. unfold add_relationship, bind, uuid4, get, put, ret in Hstep.
  injection Hstep as <- <-.
  step H. injection Hstep as <- <-.
  eapply copy_mappings_mappings; [| exact H]. exact HP.
Qed.

(** ** Looking a model up *)

Lemma get_data_model_by_id_inr model_id user st m st' :
  get_data_model_by_id model_id user st = inr (m, st') ->
  st' = st
  /\ find (fun r => N.eqb (DataModel.id r) model_id) (data_models st) = Some m.
Proof.
  unfold get_data_model_by_id. intros H. step H. injection Hstep as <- <-.
  destruct (find _ _) as [dm|]; [| discriminate].
  destruct user as [u|]; [| injection H as <- <-; auto].
  step H. injection H as <- <-.
  unfold get_project_by_id in Hstep. step Hstep. injection Hstep0 as <- <-.
  destruct (find _ (projects _)); [| discriminate].
  destruct (_ && _); [discriminate |]. injection Hstep as _ <-. auto.
Qed.



(** ** The new version *)




(** ** The sample graph with attribute mappings *)

(** C1 on the code.  Versioning the model with two entities, three
    attributes and one relationship carrying two attribute mappings stops
    at the first mapping: the name [RelationshipAttributeMapping] is not
    bound in the module (the model class is [RelationshipAttribute]), so
    the call raises before [db.commit()] and the session commits nothing:
    no new model, and the source model stays the latest version.  On any
    store, a call that returns has copied no attribute mapping. *)
Theorem create_version_sample_raises :
  create_version 20 1 sample_store
  = inl (NameError "RelationshipAttributeMapping")
  /\ committed sample_store (create_version 20 1 sample_store) = sample_store
  /\ map DataModel.is_latest_version
         (data_models (committed sample_store (create_version 20 1 sample_store)))
     = [true]
  /\ Profiler.str_in "RelationshipAttributeMapping" module_globals = false
  /\ (forall (model_id user_id : UUID) (st st' : Store) (new_model : DataModel.t),
        create_version model_id user_id st = inr (new_model, st') ->
        relationship_attributes st' = relationship_attributes st).
Proof.
  split; [vm_compute; reflexivity |]. split; [vm_compute; reflexivity |].
  split; [vm_compute; reflexivity |]. split; [vm_compute; reflexivity |].
  intros model_id user_id st st' new_model. unfold create_version. intros H.
  step H. apply get_data_model_by_id_inr in Hstep as [-> Hfind].
  step H. apply global_inr in Hstep as ->.
  step H. apply global_inr in Hstep as ->.
  step H. unfold lift in Hstep.
  destruct (Version._increment_version _) as [e | version]; [discriminate |].
  injection Hstep as <- <-.
  step H. injection Hstep as <- <-.
  step H. unfold update_data_model in Hstep. injection Hstep as _ <-.
  step H. unfold add_data_model, bind, uuid4, get, put, ret in Hstep.
  cbn in Hstep. injection Hstep as <- <-.
  step H. destruct x3 as [entity_id_map attribute_id_map].
  step H. injection H as <- <-.
  pose proof (copy_entities_mappings _ _ _ _ _ _ eq_refl Hstep) as Hm1.
  exact (copy_relationships_mappings _ _ _ _ _ _ _ _ Hm1 Hstep0).
Qed.

End ClonerFacts.

(* ================================================================== *)
(** * Printing and reading integers; chains of versions                *)
(* ================================================================== *)

Module LineageFacts.
Import Py Version Lineage VersionFacts.

#[local] Open Scope Z_scope.

(** ** [str] and [int] on integers *)

Lemma uint_all_digits d : all_digits (NilEmpty.string_of_uint d) = true.
Proof. induction d; simpl; auto. Qed.

Lemma uint_value_from d a :
  dec_value_from (Zpos a) (NilEmpty.string_of_uint d) = Zpos (Pos.of_uint_acc d a).
Proof.
  revert a. induction d; intros a; cbn [NilEmpty.string_of_uint dec_value_from Pos.of_uint_acc];
    try reflexivity; rewrite <- IHd; f_equal;
    vm_compute digit_val; rewrite ?Pos2Z.inj_add, Pos2Z.inj_mul; lia.
Qed.

Lemma uint_value d :
  dec_value (NilEmpty.string_of_uint d) = Z.of_N (Pos.of_uint d).
Proof.
  unfold dec_value. induction d; simpl; try reflexivity; try exact IHd;
    apply uint_value_from.
Qed.

Lemma to_uint_string p :
  NilZero.string_of_uint (Pos.to_uint p) = NilEmpty.string_of_uint (Pos.to_uint p).
Proof.
  pose proof (DecimalPos.Unsigned.to_uint_nonnil p) as H.
  destruct (Pos.to_uint p); [contradiction | reflexivity ..].
Qed.

Lemma uint_string_nonempty d :
  d <> Decimal.Nil -> NilEmpty.string_of_uint d <> EmptyString.
Proof. destruct d; simpl; congruence. Qed.

(** [str] of a natural number is a run of digits that denotes it. *)
Lemma str_int_digits n :
  0 <= n -> digit_string (str_int n) /\ dec_value (str_int n) = n.
Proof.
  intros Hn. destruct n as [|p|p]; [split; [split |]; [discriminate | reflexivity ..] | | lia].
  unfold str_int. simpl. rewrite to_uint_string. split; [split |].
  - apply uint_string_nonempty, DecimalPos.Unsigned.to_uint_nonnil.
  - apply uint_all_digits.
  - rewrite uint_value, DecimalPos.Unsigned.of_to. reflexivity.
Qed.

Lemma str_int_neg p : str_int (Zneg p) = String "-" (str_int (Zpos p)).
Proof. reflexivity. Qed.

(** [int(str(n))] is [n]. *)
Lemma py_int_str_int n : py_int (str_int n) = Some n.
Proof.
  destruct n as [|p|p]; [reflexivity | |].
  - destruct (str_int_digits (Zpos p)) as [Hd Hv]; [lia |].
    now rewrite (py_int_digits _ Hd), Hv.
  - destruct (str_int_digits (Zpos p)) as [[Hne Hd] Hv]; [lia |].
    rewrite str_int_neg. destruct (str_int (Zpos p)) as [|c r] eqn:E; [congruence |].
    simpl in Hd. apply andb_true_iff in Hd as [Hc Hr].
    unfold py_int. simpl lstrip. cbv iota beta. rewrite Hc.
    rewrite (scan_int_digits r _ Hr). simpl all_space. cbv iota beta.
    f_equal. unfold dec_value in Hv. simpl dec_value_from in Hv.
    rewrite Z.add_0_l in Hv. rewrite Hv. reflexivity.
Qed.

(** ** The characters of a label *)

Lemma chars_app (s t : string) :
  list_ascii_of_string (s +:+ t) = list_ascii_of_string s ++ list_ascii_of_string t.
Proof. induction s as [|c s IH]; [reflexivity |]. rewrite app_cons. simpl. now rewrite IH. Qed.

Lemma all_space_chars s :
  all_space s = true -> Forall int_char (list_ascii_of_string s).
Proof.
  induction s as [|c r IH]; simpl; intros H; [constructor |].
  apply andb_true_iff in H as [Hc Hr]. constructor; [now left | auto].
Qed.

Lemma lstrip_chars s :
  Forall int_char (list_ascii_of_string (lstrip s)) ->
  Forall int_char (list_ascii_of_string s).
Proof.
  induction s as [|c r IH]; simpl; [auto |].
  destruct (py_isspace c) eqn:Hc; [| auto].
  intros H. constructor; [now left | auto].
Qed.

Lemma scan_int_chars s :
  forall acc n rest,
    scan_int s acc = Some (n, rest) ->
    Forall int_char (list_ascii_of_string rest) ->
    Forall int_char (list_ascii_of_string s).
Proof.
  assert (H : forall k s, (String.length s <= k)%nat ->
            forall acc n rest,
              scan_int s acc = Some (n, rest) ->
              Forall int_char (list_ascii_of_string rest) ->
              Forall int_char (list_ascii_of_string s)).
  { clear s. induction k as [|k IH]; intros s Hlen acc n rest Hs Hrest.
    - destruct s; [constructor | simpl in Hlen; lia].
    - destruct s as [|c r]; [constructor |]. simpl in Hlen, Hs.
      destruct (is_digit c) eqn:Hc.
      + constructor; [right; now left |].
        eapply (IH r); [lia | exact Hs | exact Hrest].
      + destruct (Ascii.eqb_spec c "_") as [-> | Hu].
        * destruct r as [|d r']; [discriminate |].
          destruct (is_digit d) eqn:Hd; [| discriminate].
          constructor; [do 4 right; reflexivity |].
          constructor; [right; now left |].
          simpl in Hlen. eapply (IH r'); [lia | exact Hs | exact Hrest].
        * injection Hs as _ <-. exact Hrest. }
  intros acc n rest. now apply (H (String.length s)).
Qed.

(** A string that [int()] accepts holds nothing but such characters. *)
Lemma py_int_chars s n :
  py_int s = Some n -> Forall int_char (list_ascii_of_string s).
Proof.
  unfold py_int. intros H. apply lstrip_chars.
  assert (Hu : forall u,
             match u with
             | String c r =>
                 if is_digit c then
                   match scan_int r (digit_val c) with
                   | Some (n, rest) => if all_space rest then Some n else None
                   | None => None
                   end
                 else None
             | EmptyString => None
             end <> None -> Forall int_char (list_ascii_of_string u)).
  { clear. intros [|c r]; [congruence |].
    destruct (is_digit c) eqn:Hc; [| congruence].
    destruct (scan_int r (digit_val c)) as [[n rest]|] eqn:Hs; [| congruence].
    destruct (all_space rest) eqn:Hr; [| congruence]. intros _.
    constructor; [right; now left |].
    eapply scan_int_chars; [exact Hs | now apply all_space_chars]. }
  destruct (lstrip s) as [|c r] eqn:E; [discriminate H |].
  destruct (Ascii.eqb_spec c "+") as [-> | Hp].
  { constructor; [do 2 right; now left |]. apply Hu.
    destruct r as [|c' r']; [discriminate H |].
    destruct (is_digit c'); [| discriminate H].
    destruct (scan_int r' (digit_val c')) as [[m rest]|]; [| discriminate H].
    destruct (all_space rest); [discriminate | discriminate H]. }
  destruct (Ascii.eqb_spec c "-") as [-> | Hm].
  { constructor; [do 3 right; now left |]. apply Hu.
    destruct r as [|c' r']; [discriminate H |].
    destruct (is_digit c'); [| discriminate H].
    destruct (scan_int r' (digit_val c')) as [[m rest]|]; [| discriminate H].
    destruct (all_space rest); [discriminate | discriminate H]. }
  apply Hu.
  assert (Hsign : match String c r with
                  | String "+" r0 => (1, r0)
                  | String "-" r0 => (-1, r0)
                  | _ => (1, String c r)
                  end = (1, String c r)).
  { destruct c as [[] [] [] [] [] [] [] []]; try reflexivity; congruence. }
  rewrite Hsign in H.
  destruct (is_digit c); [| discriminate H].
  destruct (scan_int r (digit_val c)) as [[m rest]|]; [| discriminate H].
  destruct (all_space rest); [discriminate | discriminate H].
Qed.

Lemma all_digits_chars d :
  all_digits d = true ->
  Forall (fun c => is_digit c = true) (list_ascii_of_string d).
Proof.
  induction d as [|c r IH]; simpl; intros H; [constructor |].
  apply andb_true_iff in H as [Hc Hr]. constructor; auto.
Qed.

(** A MAJOR.MINOR.PATCH label holds digits, dots and at most a line feed. *)
Lemma semver_chars s a b c :
  semver s a b c ->
  Forall (fun x => is_digit x = true \/ x = "."%char \/ x = ascii_of_nat 10)
         (list_ascii_of_string s).
Proof.
  assert (Hd : forall d, digit_string d ->
            Forall (fun x => is_digit x = true \/ x = "."%char \/ x = ascii_of_nat 10)
                   (list_ascii_of_string d)).
  { intros d [_ H]. apply all_digits_chars in H.
    rewrite List.Forall_forall in *. intros x Hx. left. auto. }
  assert (Hdot : Forall (fun x => is_digit x = true \/ x = "."%char
                                   \/ x = ascii_of_nat 10)
                        (list_ascii_of_string ".")).
  { constructor; [right; now left | constructor]. }
  intros H. destruct H as [a b c Ha Hb Hc | a b c Ha Hb Hc]; rewrite !chars_app.
  - apply List.Forall_app; split; [auto |].
    apply List.Forall_app; split; [exact Hdot |].
    apply List.Forall_app; split; [auto |].
    apply List.Forall_app; split; [exact Hdot | auto].
  - apply List.Forall_app; split; [auto |].
    apply List.Forall_app; split; [exact Hdot |].
    apply List.Forall_app; split; [auto |].
    apply List.Forall_app; split; [exact Hdot |].
    apply List.Forall_app; split; [auto |].
    constructor; [right; now right | constructor].
Qed.

Lemma new_suffix_char s : In "w"%char (list_ascii_of_string (s +:+ "-new")).
Proof. rewrite chars_app. apply in_app_iff. right. simpl. auto. Qed.

Lemma new_suffix_not_int s : py_int (s +:+ "-new") = None.
Proof.
  destruct (py_int _) as [n|] eqn:H; [| reflexivity].
  apply py_int_chars in H. rewrite List.Forall_forall in H.
  destruct (H _ (new_suffix_char s)) as [Hw | [Hw | [Hw | [Hw | Hw]]]]; discriminate Hw.
Qed.

Lemma new_suffix_not_semver s : re_match_semver (s +:+ "-new") = None.
Proof.
  destruct (re_match_semver _) as [[[a b] c]|] eqn:H; [| reflexivity].
  apply re_match_semver_sound, semver_chars in H. rewrite List.Forall_forall in H.
  destruct (H _ (new_suffix_char s)) as [Hw | [Hw | Hw]]; discriminate Hw.
Qed.

(** ** One step *)

Lemma semver_nonempty s a b c : semver s a b c -> s <> EmptyString.
Proof.
  intros H ->. apply re_match_semver_complete in H. discriminate H.
Qed.

Lemma increment_unfold c r :
  _increment_version (Some (String c r))
  = match re_match_semver (String c r) with
    | Some (g1, g2, g3) =>
        match int_ g1, int_ g2, int_ g3 with
        | inr major, inr minor, inr patch =>
            inr (str_int major +:+ "." +:+ str_int minor +:+ "."
                 +:+ str_int (patch + 1))
        | inl e, _, _ => inl e
        | _, inl e, _ => inl e
        | _, _, inl e => inl e
        end
    | None =>
        match int_ (String c r) with
        | inr version_num => inr (str_int (version_num + 1))
        | inl (ValueError _) => inr (String c r +:+ "-new")
        | inl e => inl e
        end
    end.
Proof. reflexivity. Qed.

Lemma increment_semver s a b c :
  semver s a b c ->
  _increment_version (Some s)
  = inr (str_int (dec_value a) +:+ "." +:+ str_int (dec_value b) +:+ "."
         +:+ str_int (dec_value c + 1)).
Proof.
  intros H. pose proof (semver_nonempty _ _ _ _ H) as Hne.
  destruct s as [|x r]; [congruence |]. rewrite increment_unfold.
  rewrite (re_match_semver_complete _ _ _ _ H).
  assert (digit_string a /\ digit_string b /\ digit_string c) as (Ha & Hb & Hc)
    by (inversion H; auto).
  now rewrite (int_digits a Ha), (int_digits b Hb), (int_digits c Hc).
Qed.

Lemma increment_int s n :
  s <> EmptyString -> re_match_semver s = None -> py_int s = Some n ->
  _increment_version (Some s) = inr (str_int (n + 1)).
Proof.
  intros Hne Hm Hi. destruct s as [|x r]; [congruence |].
  rewrite increment_unfold, Hm. unfold int_. now rewrite Hi.
Qed.

Lemma increment_other s :
  s <> EmptyString -> re_match_semver s = None -> py_int s = None ->
  _increment_version (Some s) = inr (s +:+ "-new").
Proof.
  intros Hne Hm Hi. destruct s as [|x r]; [congruence |].
  rewrite increment_unfold, Hm. unfold int_. now rewrite Hi.
Qed.

Lemma dec_value_from_ge s acc :
  all_digits s = true -> 0 <= acc -> acc <= dec_value_from acc s.
Proof.
  revert acc. induction s as [|c r IH]; simpl; intros acc H Hacc; [lia |].
  apply andb_true_iff in H as [Hc Hr].
  assert (0 <= digit_val c).
  { unfold is_digit in Hc. apply andb_true_iff in Hc as [H1 _].
    apply Nat.leb_le in H1. unfold digit_val. lia. }
  specialize (IH (acc * 10 + digit_val c) Hr). lia.
Qed.

Lemma dec_value_nonneg s : digit_string s -> 0 <= dec_value s.
Proof. intros [_ H]. now apply (dec_value_from_ge s 0 H). Qed.








(** X4.  A label that ends in "-new" is never parsed again: every further
    version appends one more "-new". *)
Theorem increment_new_suffix (s : string) :
  _increment_version (Some (s +:+ "-new")) = inr (s +:+ "-new" +:+ "-new")
  /\ (forall n : nat,
         successor n (Some (s +:+ "-new"))
         = inr (Nat.iter (S (S n)) (fun v => v +:+ "-new") s)).
Proof.
  assert (Hstep : forall t, _increment_version (Some (t +:+ "-new"))
                            = inr ((t +:+ "-new") +:+ "-new")).
  { intros t. apply increment_other.
    - intros E. pose proof (new_suffix_char t) as Hw. rewrite E in Hw. exact Hw.
    - apply new_suffix_not_semver.
    - apply new_suffix_not_int. }
  split.
  - rewrite Hstep. f_equal. 
    induction s as [|c s IH]; [reflexivity |]. rewrite !app_cons. now rewrite IH.
  - intros n. revert s. induction n as [|n IH]; intros s; cbn [successor]; rewrite Hstep.
    + reflexivity.
    + rewrite IH. f_equal. symmetry.
      exact (Nat.iter_succ_r (S (S n)) (fun v => v +:+ "-new") s).
Qed.

(** X5.  The label of a new version is never empty and never the label
    of the model it was made from. *)
Theorem increment_changes_label :
  (forall cv : option string, _increment_version cv <> inr EmptyString)
  /\ (forall s : string, _increment_version (Some s) <> inr s).
Proof.
  assert (Hcases : forall s, s <> EmptyString ->
            (exists a b c, semver s a b c)
            \/ (exists n, re_match_semver s = None /\ py_int s = Some n)
            \/ (re_match_semver s = None /\ py_int s = None)).
  { intros s _. destruct (re_match_semver s) as [[[a b] c]|] eqn:Hm.
    - left. exists a, b, c. now apply re_match_semver_sound.
    - right. destruct (py_int s) as [n|]; eauto. }
  assert (Hstr : forall n, str_int n <> EmptyString).
  { intros n E. pose proof (py_int_str_int n) as Hi. rewrite E in Hi. discriminate Hi. }
  split.
  - intros [s|]; [| discriminate].
    destruct (string_dec s EmptyString) as [-> | Hne]; [discriminate |].
    destruct (Hcases s Hne) as [(a & b & c & H) | [(n & Hm & Hi) | (Hm & Hi)]].
    + rewrite (increment_semver _ _ _ _ H).
      destruct (str_int (dec_value a)) eqn:E; [now apply Hstr in E | discriminate].
    + rewrite (increment_int s n Hne Hm Hi). intros [= E]. now apply Hstr in E.
    + rewrite (increment_other s Hne Hm Hi). intros [= E].
      pose proof (new_suffix_char s) as Hw. rewrite E in Hw. exact Hw.
  - intros s.
    destruct (string_dec s EmptyString) as [-> | Hne]; [discriminate |].
    destruct (Hcases s Hne) as [(a & b & c & H) | [(n & Hm & Hi) | (Hm & Hi)]].
    + rewrite (increment_semver _ _ _ _ H). intros [= E].
      assert (digit_string a /\ digit_string b /\ digit_string c) as (Ha & Hb & Hc)
        by (inversion H; auto).
      pose proof (dec_value_nonneg _ Ha). pose proof (dec_value_nonneg _ Hb).
      pose proof (dec_value_nonneg _ Hc) as Hc0.
      assert (Hs' : semver s (str_int (dec_value a)) (str_int (dec_value b))
                           (str_int (dec_value c + 1))).
      { rewrite <- E. apply semver_plain; apply str_int_digits; lia. }
      apply re_match_semver_complete in H, Hs'. rewrite H in Hs'.
      injection Hs' as _ _ Ec.
      destruct (str_int_digits (dec_value c + 1)) as [_ Hv]; [lia |].
      rewrite <- Ec in Hv. lia.
    + rewrite (increment_int s n Hne Hm Hi). intros [= E].
      pose proof (py_int_str_int (n + 1)) as Hi'. rewrite E, Hi in Hi'.
      injection Hi' as Hi'. lia.
    + rewrite (increment_other s Hne Hm Hi). intros [= E].
      apply (f_equal list_ascii_of_string) in E. rewrite chars_app in E.
      apply (f_equal (@length ascii)) in E. rewrite List.length_app in E.
      simpl in E. lia.
Qed.

End LineageFacts.

(* ================================================================== *)
(** * Facts about uploads and the dataset routes                       *)
(* ================================================================== *)

Module RouteFacts.
Import Py PyVal Pandas Profiler Importer Routes Spec RouteSamples.
Import VersionFacts LineageFacts.

#[local] Open Scope Z_scope.

(** ** File names *)

Lemma str_in_In x l : str_in x l = true <-> In x l.
Proof.
  unfold str_in. rewrite existsb_exists. split.
  - intros (y & Hy & E). apply String.eqb_eq in E. now subst.
  - intros H. exists x. split; [exact H | apply String.eqb_refl].
Qed.

Lemma after_last_dot_none s :
  after_last_dot s = None <-> ~ In "."%char (list_ascii_of_string s).
Proof.
  induction s as [|c r IH]; simpl; [tauto |].
  destruct (after_last_dot r) as [e|].
  - split; [discriminate |]. intros H. exfalso.
    assert (~ In "."%char (list_ascii_of_string r)) as Hr by tauto.
    apply IH in Hr. discriminate Hr.
  - destruct (Ascii.eqb_spec c ".") as [-> | Hc].
    + split; [discriminate | tauto].
    + split; [| reflexivity]. intros _ [E | Hin]; [congruence |].
      now apply (proj1 IH).
Qed.

Lemma after_last_dot_sound s e :
  after_last_dot s = Some e ->
  exists stem, s = stem +:+ "." +:+ e
               /\ ~ In "."%char (list_ascii_of_string e).
Proof.
  revert e. induction s as [|c r IH]; intros e; simpl; [discriminate |].
  destruct (after_last_dot r) as [e'|] eqn:Hr.
  - intros [= <-]. destruct (IH e' eq_refl) as (stem & -> & Hn).
    exists (String c stem). split; [now rewrite app_cons | exact Hn].
  - apply after_last_dot_none in Hr.
    destruct (Ascii.eqb_spec c ".") as [-> | Hc]; [| discriminate].
    intros [= <-]. exists EmptyString. split; [reflexivity | exact Hr].
Qed.

Lemma after_last_dot_complete stem e :
  ~ In "."%char (list_ascii_of_string e) ->
  after_last_dot (stem +:+ "." +:+ e) = Some e.
Proof.
  intros Hn. induction stem as [|x stem IH].
  - rewrite app_nil_l, app_cons, app_nil_l. simpl.
    now rewrite (proj2 (after_last_dot_none e) Hn).
  - rewrite app_cons. simpl. now rewrite IH.
Qed.

(** X6.  [allowed_file] accepts exactly the names STEM.EXT whose text
    after the last dot is csv, json, xlsx or xls in any mix of upper and
    lower case; whatever precedes the last dot plays no role, and a name
    without a dot is refused. *)
Theorem allowed_file_last_extension (name : string) :
  allowed_file name = true
  <-> exists stem ext,
        name = stem +:+ "." +:+ ext
        /\ ~ In "."%char (list_ascii_of_string ext)
        /\ In (lower ext) ["csv"; "json"; "xlsx"; "xls"]%string.
Proof.
  unfold allowed_file. split.
  - destruct (after_last_dot name) as [ext|] eqn:H; [| discriminate].
    intros Hin. apply after_last_dot_sound in H as (stem & -> & Hn).
    exists stem, ext. split; [reflexivity |]. split; [exact Hn |].
    now apply str_in_In.
  - intros (stem & ext & -> & Hn & Hin).
    rewrite (after_last_dot_complete stem ext Hn).
    now apply str_in_In.
Qed.

(** ** The import route *)

Section Route.
Variable secure_filename : string -> string.
Variables read_csv read_json read_excel : string -> Exception + DataFrame.
Variable json_dumps : list dict -> Exception + string.
Variable uuid4 : nat -> string.
Variable isoformat : nat -> string.
Variable upload_path : string -> string.

(** The path under which the route saves the upload [file]. *)
Lemma import_dataset_outcomes (request : Request) (w : World) :
  let r := import_dataset secure_filename read_csv read_json read_excel
                          json_dumps uuid4 isoformat upload_path request w in
  match request_files request with
  | None => r = (Response [("error", VStr "No file part")] 400, w)
  | Some file =>
      let path := upload_path (uuid4 (entropy w) +:+ "_"
                               +:+ secure_filename (filename file)) in
      if String.eqb (filename file) EmptyString then
        r = (Response [("error", VStr "No selected file")] 400, w)
      else if allowed_file (filename file) then
        (r = (Unhandled (IndexError "list index out of range"),
              mkWorld (<[path := body file]> (files w)) (datasets w) (columns w)
                      (S (entropy w)) (clock w))
         /\ after_last_dot (secure_filename (filename file)) = None)
        \/ (exists e,
               r = (Response [("error", VStr (str_exception e))] 500,
                    mkWorld (delete path (<[path := body file]> (files w)))
                            (datasets w) (columns w) (S (entropy w)) (clock w)))
        \/ (exists payload row cols n t,
               r = (Response payload 200,
                    mkWorld (<[path := body file]> (files w))
                            (datasets w ++ [row]) (columns w ++ cols) n t))
      else r = (Response [("error", VStr "File type not allowed")] 400, w)
  end.
Proof.
  unfold import_dataset. destruct (request_files request) as [file|]; [| reflexivity].
  cbv zeta. destruct (String.eqb (filename file) EmptyString); [reflexivity |].
  destruct (allowed_file (filename file)); [| reflexivity].
  destruct (after_last_dot (secure_filename (filename file))) as [ext|];
    [| left; split; reflexivity].
  right. destruct (load_data _ _ _ _ _ _) as [e | df]; [left; exists e; reflexivity |].
  destruct (json_dumps (infer_schema df)) as [e | schema_json];
    [left; exists e; reflexivity |].
  right. do 5 eexists. reflexivity.
Qed.

(** X7.  The set of allowed extensions and the chain that picks the
    reader agree: a name is allowed exactly when it has an extension for
    which, once lowered, one of the three readers is chosen.  So when
    [secure_filename] keeps the name allowed, [df] is bound before it is
    used. *)
Theorem reader_chosen_iff_allowed (name : string) :
  allowed_file name = true
  <-> exists ext reader,
        after_last_dot name = Some ext
        /\ reader_for read_csv read_json read_excel (lower ext) = Some reader.
Proof.
  unfold allowed_file, reader_for, ALLOWED_EXTENSIONS, str_in.
  destruct (after_last_dot name) as [ext|];
    [| split; [discriminate | intros (? & ? & H & _); discriminate H]].
  cbn [existsb]. split.
  - intros H. exists ext.
    destruct (String.eqb (lower ext) "csv"); [eexists; split; reflexivity |].
    destruct (String.eqb (lower ext) "json"); [eexists; split; reflexivity |].
    cbn [orb] in H. rewrite H. eexists. split; reflexivity.
  - intros (e & reader & [= <-] & H).
    destruct (String.eqb (lower ext) "csv"); [reflexivity |].
    destruct (String.eqb (lower ext) "json"); [reflexivity |].
    cbn [orb]. destruct (_ || _); [reflexivity | discriminate H].
Qed.

(** X8.  The route answers 400 exactly when the request has no file
    part, the file has an empty name, or the name is not an allowed one;
    a request answered 400 changes nothing: no file is saved and no row
    is written. *)
Theorem import_dataset_rejections (request : Request) (w : World) :
  let r := import_dataset secure_filename read_csv read_json read_excel
                          json_dumps uuid4 isoformat upload_path request w in
  ((exists payload, fst r = Response payload 400)
   <-> match request_files request with
       | None => True
       | Some file =>
           filename file = EmptyString \/ allowed_file (filename file) = false
       end)
  /\ ((exists payload, fst r = Response payload 400) -> snd r = w).
Proof.
  pose proof (import_dataset_outcomes request w) as H. cbv zeta in *.
  destruct (request_files request) as [file|].
  - destruct (String.eqb_spec (filename file) EmptyString) as [E | E].
    + rewrite H. simpl. split; [split; eauto | reflexivity].
    + destruct (allowed_file (filename file)) eqn:Ha.
      * assert (Hno : ~ exists payload,
                  fst (import_dataset secure_filename read_csv read_json read_excel
                         json_dumps uuid4 isoformat upload_path request w)
                  = Response payload 400).
        { intros [payload Hp].
          destruct H as [[H _] | [[e H] | (p & row & cols & n & t & H)]];
            rewrite H in Hp; discriminate Hp. }
        split; [split; [tauto | intros [? | ?]; congruence] | tauto].
      * rewrite H. simpl. split; [split; eauto | reflexivity].
  - rewrite H. simpl. split; [split; eauto | reflexivity].
Qed.

(** X9.  When [secure_filename] leaves no dot in an allowed name (it
    strips a leading dot, so [.csv] becomes [csv]), taking the extension
    raises IndexError outside the [try]: the exception is not handled, no
    row is written, and the upload already saved stays in the folder. *)
Theorem extension_lost_keeps_upload
    (request : Request) (w : World) (file : Upload) :
  request_files request = Some file ->
  filename file <> EmptyString ->
  allowed_file (filename file) = true ->
  after_last_dot (secure_filename (filename file)) = None ->
  exists w',
    import_dataset secure_filename read_csv read_json read_excel json_dumps
                   uuid4 isoformat upload_path request w
    = (Unhandled (IndexError "list index out of range"), w')
    /\ datasets w' = datasets w
    /\ columns w' = columns w
    /\ files w'
         !! upload_path (uuid4 (entropy w) +:+ "_" +:+ secure_filename (filename file))
       = Some (body file).
Proof.
  intros Hfile Hname Hallowed Hext. unfold import_dataset. rewrite Hfile.
  destruct (String.eqb_spec (filename file) EmptyString) as [E | _]; [contradiction |].
  rewrite Hallowed, Hext. eexists. split; [reflexivity |].
  cbn. repeat split. apply lookup_insert_eq.
Qed.

(** X10.  Whatever made the route answer 500 (a reader that raised, a
    schema that [json.dumps] refused, an extension for which no reader is
    chosen), the answer holds the error alone, both tables are as they
    were, and the upload has been removed. *)
Theorem server_error_persists_nothing
    (request : Request) (w w' : World) (payload : dict) :
  import_dataset secure_filename read_csv read_json read_excel json_dumps
                 uuid4 isoformat upload_path request w
  = (Response payload 500, w') ->
  datasets w' = datasets w
  /\ columns w' = columns w
  /\ exists file e,
       request_files request = Some file
       /\ payload = [("error", VStr (str_exception e))]
       /\ files w'
            !! upload_path (uuid4 (entropy w) +:+ "_"
                            +:+ secure_filename (filename file))
          = None.
Proof.
  intros Hrun. pose proof (import_dataset_outcomes request w) as H. cbv zeta in H.
  rewrite Hrun in H. destruct (request_files request) as [file|]; [| discriminate H].
  destruct (String.eqb (filename file) EmptyString); [discriminate H |].
  destruct (allowed_file (filename file)); [| discriminate H].
  destruct H as [[H _] | [[e H] | (p & row & cols & n & t & H)]];
    [discriminate H | | discriminate H].
  injection H as -> ->. cbn. repeat split.
  exists file, e. repeat split. apply lookup_delete_eq.
Qed.

(** X11.  Whatever the outcome, the route leaves alone what was stored
    before: the rows of both tables are kept, at most one dataset row is
    appended after them (and column rows only together with it), and no
    file other than the one at the upload path is written or removed. *)
Theorem import_dataset_frame (request : Request) (w : World) :
  let w' := snd (import_dataset secure_filename read_csv read_json read_excel
                                json_dumps uuid4 isoformat upload_path request w) in
  (exists ds cs,
      datasets w' = datasets w ++ ds /\ columns w' = columns w ++ cs
      /\ (length ds <= 1)%nat /\ (ds = [] -> cs = []))
  /\ match request_files request with
     | None => files w' = files w
     | Some file =>
         forall path,
           path <> upload_path (uuid4 (entropy w) +:+ "_"
                                +:+ secure_filename (filename file)) ->
           files w' !! path = files w !! path
     end.
Proof.
  pose proof (import_dataset_outcomes request w) as H. cbv zeta in *.
  assert (Hnil : forall x : World,
             exists ds cs, datasets x = datasets x ++ ds /\ columns x = columns x ++ cs
                           /\ (length ds <= 1)%nat /\ (ds = [] -> cs = [])).
  { intros x. exists [], []. rewrite !List.app_nil_r. simpl. repeat split; lia. }
  destruct (request_files request) as [file|]; [| rewrite H; split; [apply Hnil | reflexivity]].
  destruct (String.eqb (filename file) EmptyString);
    [rewrite H; split; [apply Hnil | reflexivity] |].
  destruct (allowed_file (filename file));
    [| rewrite H; split; [apply Hnil | reflexivity]].
  destruct H as [[H _] | [[e H] | (p & row & cols & n & t & H)]]; rewrite H; cbn.
  - split; [exists [], []; rewrite !List.app_nil_r; simpl; repeat split; lia |].
    intros path Hp. now rewrite lookup_insert_ne.
  - split; [exists [], []; rewrite !List.app_nil_r; simpl; repeat split; lia |].
    intros path Hp. rewrite lookup_delete_ne by congruence. now rewrite lookup_insert_ne.
  - split; [exists [row], cols; simpl; repeat split; [lia | discriminate] |].
    intros path Hp. now rewrite lookup_insert_ne.
Qed.

End Route.

Lemma extension_lost_keeps_upload_witness :
  exists w',
    import_dataset strip_leading sample_reader sample_reader sample_reader
                   sample_json_dumps sample_uuid4 sample_isoformat
                   sample_upload_path dot_csv_upload empty_world
    = (Unhandled (IndexError "list index out of range"), w')
    /\ datasets w' = []
    /\ files w' !! "uploads/0_csv" = Some "a,b"%string.
Proof.
  destruct (extension_lost_keeps_upload strip_leading sample_reader sample_reader
              sample_reader sample_json_dumps sample_uuid4 sample_isoformat
              sample_upload_path dot_csv_upload empty_world
              (mkUpload ".csv" "a,b") eq_refl ltac:(discriminate) eq_refl eq_refl)
    as (w' & H1 & H2 & _ & H4).
  exists w'. auto.
Defined.

Lemma server_error_persists_nothing_witness :
  exists payload w',
    import_dataset sample_secure_filename sample_reader sample_reader
                   sample_reader sample_json_dumps sample_uuid4
                   sample_isoformat sample_upload_path broken_json_upload
                   empty_world
    = (Response payload 500, w')
    /\ datasets w' = [] /\ columns w' = [].
Proof.
  eexists. eexists. split; [vm_compute; reflexivity |].
  exact (let H := server_error_persists_nothing sample_secure_filename
                    sample_reader sample_reader sample_reader sample_json_dumps
                    sample_uuid4 sample_isoformat sample_upload_path
                    broken_json_upload empty_world _ _ eq_refl in
         conj (proj1 H) (proj1 (proj2 H))).
Defined.

(** ** Reading and deleting a dataset *)

Lemma find_filter_other {A} (f g : A -> bool) (l : list A) :
  (forall x, f x = true -> g x = true) ->
  find f (List.filter g l) = find f l.
Proof.
  intros H. induction l as [|x l IH]; simpl; [reflexivity |].
  destruct (g x) eqn:G; simpl.
  - destruct (f x); [reflexivity | exact IH].
  - destruct (f x) eqn:F; [apply H in F; congruence | exact IH].
Qed.

Lemma find_filter_none {A} (f : A -> bool) (l : list A) :
  find f (List.filter (fun x => negb (f x)) l) = None.
Proof.
  induction l as [|x l IH]; simpl; [reflexivity |].
  destruct (f x) eqn:F; simpl; [exact IH | now rewrite F].
Qed.

Lemma filter_filter_other {A} (f g : A -> bool) (l : list A) :
  (forall x, f x = true -> g x = true) ->
  List.filter f (List.filter g l) = List.filter f l.
Proof.
  intros H. induction l as [|x l IH]; simpl; [reflexivity |].
  destruct (g x) eqn:G; simpl.
  - destruct (f x); [now rewrite IH | exact IH].
  - destruct (f x) eqn:F; [apply H in F; congruence | exact IH].
Qed.

Lemma filter_filter_none {A} (f : A -> bool) (l : list A) :
  List.filter f (List.filter (fun x => negb (f x)) l) = [].
Proof.
  induction l as [|x l IH]; simpl; [reflexivity |].
  destruct (f x) eqn:F; simpl; [exact IH | now rewrite F].
Qed.

(** X12.  [delete_dataset] answers 404 exactly when [get_dataset] does,
    and then changes nothing; otherwise it removes the dataset's row, its
    column rows and its file.  In both cases a [get_dataset] for the same
    id that follows answers 404. *)
Theorem delete_then_get (dataset_id : string) (w : World) :
  let r := delete_dataset dataset_id w in
  (snd (fst r) = 404 <-> snd (get_dataset dataset_id w) = 404)
  /\ (snd (fst r) = 404 -> snd r = w)
  /\ (forall row, select_dataset dataset_id w = Some row ->
        fst r = (Success, 200)
        /\ select_columns dataset_id (snd r) = []
        /\ files (snd r) !! ds_file_path row = None)
  /\ get_dataset dataset_id (snd r) = (Error "Dataset not found", 404).
Proof.
  unfold delete_dataset, get_dataset.
  destruct (select_dataset dataset_id w) as [row|] eqn:Hsel; cbn.
  - split; [split; discriminate |]. split; [discriminate |].
    split.
    + intros row' [= <-]. split; [reflexivity |]. split.
      * unfold select_columns. cbn. apply filter_filter_none.
      * apply lookup_delete_eq.
    + unfold select_dataset. cbn. now rewrite find_filter_none.
  - split; [tauto |]. split; [reflexivity |].
    split; [discriminate |]. now rewrite Hsel.
Qed.

(** X13.  Deleting a dataset leaves every other dataset as it was:
    [get_dataset] for another id answers the same row and the same column
    rows before and after, and no file but the deleted dataset's own is
    removed. *)
Theorem delete_dataset_frame (dataset_id other : string) (w : World) :
  other <> dataset_id ->
  get_dataset other (snd (delete_dataset dataset_id w)) = get_dataset other w
  /\ (forall row path,
         select_dataset dataset_id w = Some row -> path <> ds_file_path row ->
         files (snd (delete_dataset dataset_id w)) !! path = files w !! path).
Proof.
  intros Hne. unfold delete_dataset.
  destruct (select_dataset dataset_id w) as [row|] eqn:Hsel; cbn;
    [| split; [reflexivity | discriminate]].
  assert (Hds : forall r : DatasetRow,
             String.eqb (ds_id r) other = true
             -> negb (String.eqb (ds_id r) dataset_id) = true).
  { intros r E. apply String.eqb_eq in E. apply negb_true_iff, String.eqb_neq.
    congruence. }
  assert (Hcs : forall c : ColumnRow,
             String.eqb (c_dataset_id c) other = true
             -> negb (String.eqb (c_dataset_id c) dataset_id) = true).
  { intros c E. apply String.eqb_eq in E. apply negb_true_iff, String.eqb_neq.
    congruence. }
  split.
  - unfold get_dataset, select_dataset, select_columns. cbn.
    rewrite (find_filter_other _ _ _ Hds), (filter_filter_other _ _ _ Hcs).
    reflexivity.
  - intros row' path [= <-] Hp. now rewrite lookup_delete_ne.
Qed.

Lemma delete_dataset_frame_witness :
  get_dataset "d2" (snd (delete_dataset "d1" two_datasets))
  = get_dataset "d2" two_datasets.
Proof.
  exact (proj1 (delete_dataset_frame "d1" "d2" two_datasets ltac:(discriminate))).
Defined.

End RouteFacts.

(* ================================================================== *)
(** * Facts about the shape of schemas and profiles                    *)
(* ================================================================== *)

Module ShapeFacts.
Import Py PyVal Float64 Pandas Profiler Spec HashingFacts ProfilerFacts.

#[local] Open Scope Z_scope.

(** ** Loops that append *)




(** ** Counts *)

Lemma any_sum_bool l : any l = true <-> 0 < sum_bool l.
Proof.
  unfold any, sum_bool. rewrite sum_bool_from.
  induction l as [|[] l IH]; simpl.
  - split; [discriminate | lia].
  - split; [lia | reflexivity].
  - rewrite IH. lia.
Qed.

Lemma missing_plus_present l :
  (length (List.filter is_missing l) + length (dropna_cells l) = length l)%nat.
Proof.
  induction l as [|[v|] l IH]; simpl; lia.
Qed.

Lemma nodup_length_le {A} (dec : forall x y : A, {x = y} + {x <> y}) (l : list A) :
  (length (nodup dec l) <= length l)%nat.
Proof.
  induction l as [|x l IH]; simpl; [lia |].
  destruct (in_dec dec x l); simpl; lia.
Qed.

Lemma nodup_nil_inv {A} (dec : forall x y : A, {x = y} + {x <> y}) (l : list A) :
  nodup dec l = [] -> l = [].
Proof.
  destruct l as [|x l]; [reflexivity |]. intros H. exfalso.
  assert (In x (nodup dec (x :: l))) as Hin by (apply nodup_In; now left).
  rewrite H in Hin. exact Hin.
Qed.

(** X15.  The three counts of a schema record agree with each other:
    nullable is true exactly when missing_count is positive;
    unique_values is at most the number of cells that are not missing;
    and it is zero exactly when every cell is missing. *)
Theorem schema_counts_agree (col : string) (s : Series) :
  exists (nullable : bool) (missing unique : Z),
    dict_get (column_schema col s) "nullable" = Some (VBool nullable)
    /\ dict_get (column_schema col s) "missing_count" = Some (VInt missing)
    /\ dict_get (column_schema col s) "unique_values" = Some (VInt unique)
    /\ (nullable = true <-> 0 < missing)
    /\ 0 <= missing <= Z.of_nat (length (cells s))
    /\ 0 <= unique <= Z.of_nat (length (cells s)) - missing
    /\ (unique = 0 <-> missing = Z.of_nat (length (cells s))).
Proof.
  destruct (schema_entries col s) as (_ & Hnull & Huniq & Hmiss & _).
  exists (any (isnull s)), (sum_bool (isnull s)), (nunique s).
  split; [exact Hnull |]. split; [exact Hmiss |]. split; [exact Huniq |].
  split; [apply any_sum_bool |].
  rewrite isnull_sum_missing, nunique_distinct.
  unfold missing_count, unique_value_count.
  pose proof (missing_plus_present (cells s)) as Hlen.
  pose proof (nodup_length_le (fun x y : scalar => decide (x = y))
                              (map hash_key (dropna s))) as Hle.
  rewrite length_map in Hle. unfold dropna in *.
  split; [lia |]. split; [lia |]. split.
  - intros H0.
    assert (nodup (fun x y : scalar => decide (x = y))
                  (map hash_key (dropna_cells (cells s))) = []) as Hnil
      by (apply length_zero_iff_nil; lia).
    apply nodup_nil_inv, map_eq_nil in Hnil. rewrite Hnil in Hlen.
    simpl in Hlen. lia.
  - intros Hall.
    assert (dropna_cells (cells s) = []) as ->
      by (apply length_zero_iff_nil; lia).
    reflexivity.
Qed.

(** ** The frequencies in [top_values] *)

Section Totals.
Context {K : Type} `{EqDecision K}.






End Totals.



(** ** The profile *)

(** X17.  For a frame with distinct column labels, the profile has the
    keys row_count, column_count and columns; columns holds one record per
    column under its label, in the order of the frame, so column_count is
    the number of its entries; each record starts with the keys type,
    completeness and uniqueness. *)
Theorem profile_shape (df : DataFrame) :
  List.NoDup (map fst (data df)) ->
  keys (get_profiling_data df) = ["row_count"; "column_count"; "columns"]%string
  /\ dict_get (get_profiling_data df) "row_count"
     = Some (VInt (Z.of_nat (nrows df)))
  /\ dict_get (get_profiling_data df) "column_count"
     = Some (VInt (Z.of_nat (length (profile_columns df))))
  /\ profile_columns df
     = map (fun c => (fst c, VDict (column_profile (nrows df) (snd c)))) (data df)
  /\ Forall (fun c => firstn 3 (keys (column_profile (nrows df) (snd c)))
                      = ["type"; "completeness"; "uniqueness"]%string)
            (data df).
Proof.
  intros Hnd.
  assert (Hcols : profile_columns df
                  = map (fun c => (fst c, VDict (column_profile (nrows df) (snd c))))
                        (data df)).
  { unfold profile_columns.
    exact (assignments_append fst
             (fun c => VDict (column_profile (nrows df) (snd c)))
             (data df) [] Hnd (fun _ _ H => H)). }
  split; [reflexivity |]. split; [reflexivity |].
  split; [simpl; now rewrite Hcols, length_map |].
  split; [exact Hcols |].
  apply List.Forall_forall. intros [col s] _. simpl snd.
  destruct s; unfold column_profile; simpl type_name; simpl str_in; cbv iota;
    try reflexivity; destruct (negb _); reflexivity.
Qed.

Lemma profile_shape_witness :
  profile_columns frame_with_empty_text
  = map (fun c => (fst c, VDict (column_profile 2 (snd c))))
        (data frame_with_empty_text).
Proof.
  assert (Hnd : List.NoDup (map fst (data frame_with_empty_text))).
  { simpl. repeat constructor; simpl; intuition discriminate. }
  exact (proj1 (proj2 (proj2 (proj2 (profile_shape frame_with_empty_text Hnd))))).
Defined.

End ShapeFacts.

(* ================================================================== *)
(** * Facts about reading and relating entities                        *)
(* ================================================================== *)

Module ServiceFacts.
Import Py PyVal Session Cloner Service SpecGraph ClonerFacts.

#[local] Open Scope N_scope.

(** ** Who gets through *)

Lemma get_project_by_id_spec project_id u st p st' :
  get_project_by_id project_id (Some u) st = inr (p, st')
  <-> st' = st
      /\ find (fun x => N.eqb (Project.id x) project_id) (projects st) = Some p
      /\ readable_by u p.
Proof.
  unfold get_project_by_id, bind, get, readable_by.
  destruct (find _ (projects st)) as [q|]; [| split; [discriminate | intros (_ & H & _); discriminate]].
  destruct (Project.is_public q) eqn:Hpub; simpl.
  - split.
    + intros [= <- <-]. auto.
    + intros (-> & [= <-] & _). reflexivity.
  - destruct (N.eqb_spec (Project.owner_id q) u) as [Ho | Ho]; simpl.
    + split.
      * intros [= <- <-]. auto.
      * intros (-> & [= <-] & _). reflexivity.
    + split; [discriminate |].
      intros (_ & [= <-] & [H | H]); congruence.
Qed.

Lemma get_data_model_by_id_spec model_id u st m st' :
  get_data_model_by_id model_id (Some u) st = inr (m, st')
  <-> st' = st
      /\ find (fun x => N.eqb (DataModel.id x) model_id) (data_models st) = Some m
      /\ exists p,
           find (fun x => N.eqb (Project.id x) (DataModel.project_id m))
                (projects st) = Some p
           /\ readable_by u p.
Proof.
  unfold get_data_model_by_id. unfold bind at 1. unfold get at 1.
  destruct (find _ (data_models st)) as [dm|];
    [| split; [discriminate | intros (_ & H & _); discriminate]].
  unfold bind, ret.
  destruct (get_project_by_id (DataModel.project_id dm) (Some u) st)
    as [e | [p st1]] eqn:Hp.
  - split; [discriminate |]. intros (_ & [= <-] & p & Hf & Hr).
    assert (get_project_by_id (DataModel.project_id dm) (Some u) st = inr (p, st))
      as Hp' by (apply get_project_by_id_spec; auto).
    congruence.
  - apply get_project_by_id_spec in Hp as (-> & Hf & Hr). split.
    + intros [= <- <-]. split; [reflexivity |]. split; [reflexivity |].
      exists p. auto.
    + intros (-> & [= <-] & _). reflexivity.
Qed.

Lemma get_entity_by_id_spec entity_id u st e st' :
  get_entity_by_id entity_id (Some u) st = inr (e, st')
  <-> st' = st
      /\ find (fun x => N.eqb (Entity.id x) entity_id) (entities st) = Some e
      /\ exists m p,
           find (fun x => N.eqb (DataModel.id x) (Entity.data_model_id e))
                (data_models st) = Some m
           /\ find (fun x => N.eqb (Project.id x) (DataModel.project_id m))
                   (projects st) = Some p
           /\ readable_by u p.
Proof.
  unfold get_entity_by_id. unfold bind at 1. unfold get at 1.
  destruct (find _ (entities st)) as [en|];
    [| split; [discriminate | intros (_ & H & _); discriminate]].
  unfold bind, ret.
  destruct (get_data_model_by_id (Entity.data_model_id en) (Some u) st)
    as [x | [m st1]] eqn:Hm.
  - split; [discriminate |]. intros (_ & [= <-] & m & p & Hfm & Hfp & Hr).
    assert (get_data_model_by_id (Entity.data_model_id en) (Some u) st = inr (m, st))
      as Hm'.
    { apply get_data_model_by_id_spec. split; [reflexivity |].
      split; [exact Hfm |]. exists p. auto. }
    congruence.
  - apply get_data_model_by_id_spec in Hm as (-> & Hfm & p & Hfp & Hr). split.
    + intros [= <- <-]. split; [reflexivity |]. split; [reflexivity |].
      exists m, p. auto.
    + intros (-> & [= <-] & _). reflexivity.
Qed.

Lemma get_attribute_by_id_spec attribute_id u st a st' :
  get_attribute_by_id attribute_id (Some u) st = inr (a, st')
  <-> st' = st
      /\ find (fun x => N.eqb (Attribute.id x) attribute_id) (attributes st)
         = Some a
      /\ exists e m p, lineage st a e m p /\ readable_by u p.
Proof.
  unfold get_attribute_by_id. unfold bind at 1. unfold get at 1.
  destruct (find _ (attributes st)) as [at_|];
    [| split; [discriminate | intros (_ & H & _); discriminate]].
  unfold bind, ret, lineage.
  destruct (get_entity_by_id (Attribute.entity_id at_) (Some u) st)
    as [x | [e st1]] eqn:He.
  - split; [discriminate |].
    intros (_ & [= <-] & e & m & p & (Hfe & Hfm & Hfp) & Hr).
    assert (get_entity_by_id (Attribute.entity_id at_) (Some u) st = inr (e, st))
      as He'.
    { apply get_entity_by_id_spec. split; [reflexivity |].
      split; [exact Hfe |]. exists m, p. auto. }
    congruence.
  - apply get_entity_by_id_spec in He as (-> & Hfe & m & p & Hfm & Hfp & Hr).
    split.
    + intros [= <- <-]. split; [reflexivity |]. split; [reflexivity |].
      exists e, m, p. auto.
    + intros (-> & [= <-] & _). reflexivity.
Qed.

(** X18.  With a user, [get_attribute_by_id] returns the attribute
    exactly when the attribute, its entity, the entity's data model and
    the model's project are all stored and the project is public or owned
    by the user; being a member of the project is of no help.
    [get_relationship_by_id] asks the same of the relationship's data
    model and project, and nothing of the entities at its ends.  Neither
    changes the session.  Without a user, [get_attribute_by_id] returns
    any stored attribute, whatever lies above it. *)
Theorem attribute_access (id : UUID) (st : Store) :
  (forall (u : UUID) (a : Attribute.t) (st' : Store),
      get_attribute_by_id id (Some u) st = inr (a, st')
      <-> st' = st
          /\ find (fun x => N.eqb (Attribute.id x) id) (attributes st) = Some a
          /\ exists e m p, lineage st a e m p /\ readable_by u p)
  /\ (forall (u : UUID) (r : Relationship.t) (st' : Store),
        get_relationship_by_id id (Some u) st = inr (r, st')
        <-> st' = st
            /\ find (fun x => N.eqb (Relationship.id x) id) (relationships st)
               = Some r
            /\ exists m p,
                 find (fun x => N.eqb (DataModel.id x) (Relationship.data_model_id r))
                      (data_models st) = Some m
                 /\ find (fun x => N.eqb (Project.id x) (DataModel.project_id m))
                         (projects st) = Some p
                 /\ readable_by u p)
  /\ (forall (a : Attribute.t) (st' : Store),
        get_attribute_by_id id None st = inr (a, st')
        <-> st' = st
            /\ find (fun x => N.eqb (Attribute.id x) id) (attributes st) = Some a).
Proof.
  split; [| split].
  - intros u a st'. apply get_attribute_by_id_spec.
  - intros u r st'. unfold get_relationship_by_id. unfold bind at 1. unfold get at 1.
    destruct (find _ (relationships st)) as [rel|];
      [| split; [discriminate | intros (_ & H & _); discriminate]].
    unfold bind, ret.
    destruct (get_data_model_by_id (Relationship.data_model_id rel) (Some u) st)
      as [x | [m st1]] eqn:Hm.
    + split; [discriminate |]. intros (_ & [= <-] & m & p & Hfm & Hfp & Hr).
      assert (get_data_model_by_id (Relationship.data_model_id rel) (Some u) st
              = inr (m, st)) as Hm'.
      { apply get_data_model_by_id_spec. split; [reflexivity |].
        split; [exact Hfm |]. exists p. auto. }
      congruence.
    + apply get_data_model_by_id_spec in Hm as (-> & Hfm & p & Hfp & Hr). split.
      * intros [= <- <-]. split; [reflexivity |]. split; [reflexivity |].
        exists m, p. auto.
      * intros (-> & [= <-] & _). reflexivity.
  - intros a st'. unfold get_attribute_by_id, bind, get, ret.
    destruct (find _ (attributes st)) as [at_|].
    + split; [intros [= <- <-]; auto | intros (-> & [= <-]); reflexivity].
    + split; [discriminate | intros (_ & H); discriminate].
Qed.

(** ** Creating a relationship *)

(** The result of a lookup depends on the four tables it reads. *)
Lemma get_entity_by_id_frame entity_id u st st1 :
  projects st1 = projects st -> data_models st1 = data_models st ->
  entities st1 = entities st ->
  forall e, get_entity_by_id entity_id (Some u) st = inr (e, st) ->
            get_entity_by_id entity_id (Some u) st1 = inr (e, st1).
Proof.
  intros Hp Hm He e H. apply get_entity_by_id_spec in H as (_ & Hf & m & p & H).
  apply get_entity_by_id_spec. rewrite Hp, Hm, He. eauto 8.
Qed.

Lemma get_attribute_by_id_frame attribute_id u st st1 :
  projects st1 = projects st -> data_models st1 = data_models st ->
  entities st1 = entities st -> attributes st1 = attributes st ->
  forall a, get_attribute_by_id attribute_id (Some u) st = inr (a, st) ->
            get_attribute_by_id attribute_id (Some u) st1 = inr (a, st1).
Proof.
  intros Hp Hm He Ha a H.
  apply get_attribute_by_id_spec in H as (_ & Hf & e & m & p & Hl & Hr).
  apply get_attribute_by_id_spec. unfold lineage in *. rewrite Hp, Hm, He, Ha.
  split; [reflexivity |]. split; [exact Hf |]. exists e, m, p. auto.
Qed.

(** One turn of the loop over the attribute mappings never completes. *)
Lemma mapping_turn_raises data rel u mapping_data rest st :
  exists e,
    for_each (mapping_data :: rest) tt
      (fun _ mapping_data =>
         let source_id :=
           RelationshipAttributeMappingCreate.source_attribute_id mapping_data in
         let target_id :=
           RelationshipAttributeMappingCreate.target_attribute_id mapping_data in
         bind (get_attribute_by_id source_id (Some u)) (fun source_attr =>
         bind (get_attribute_by_id target_id (Some u)) (fun target_attr =>
         if negb (N.eqb (Attribute.entity_id source_attr)
                        (RelationshipCreate.source_entity_id data))
         then raise (HTTPException 400
                       ("Source attribute " +:+ str_int (Z.of_N source_id)
                        +:+ " does not belong to source entity"))
         else if negb (N.eqb (Attribute.entity_id target_attr)
                             (RelationshipCreate.target_entity_id data))
         then raise (HTTPException 400
                       ("Target attribute " +:+ str_int (Z.of_N target_id)
                        +:+ " does not belong to target entity"))
         else
           bind (global "RelationshipAttributeMapping") (fun _ =>
           bind (add_mapping (fun id ts =>
                   RelationshipAttribute.mk id ts ts (Relationship.id rel)
                                            source_id target_id)) (fun _ =>
           ret tt))))) st
    = inl e.
Proof.
  cbn [for_each]. unfold bind at 1. unfold bind at 1.
  destruct (get_attribute_by_id _ _ st) as [e | [sa st1]]; [eauto |].
  unfold bind at 1.
  destruct (get_attribute_by_id _ _ st1) as [e | [ta st2]]; [eauto |].
  destruct (negb _); [unfold raise; eauto |].
  destruct (negb _); [unfold raise; eauto |].
  eexists. reflexivity.
Qed.

Lemma create_mappings_raises data rel u st :
  RelationshipCreate.attribute_mappings data <> [] ->
  exists e, create_mappings data rel u st = inl e.
Proof.
  unfold create_mappings.
  destruct (RelationshipCreate.attribute_mappings data) as [|m rest];
    [congruence |].
  intros _. apply mapping_turn_raises.
Qed.

(** The row that [create_relationship] adds for a request. *)
Lemma create_relationship_run model_id data u st :
  create_relationship model_id data u st
  = match get_entity_by_id (RelationshipCreate.source_entity_id data) (Some u) st with
    | inl e => inl e
    | inr (source_entity, st1) =>
        match get_entity_by_id (RelationshipCreate.target_entity_id data)
                               (Some u) st1 with
        | inl e => inl e
        | inr (target_entity, st2) =>
            if negb (N.eqb (Entity.data_model_id source_entity) model_id)
               || negb (N.eqb (Entity.data_model_id target_entity) model_id)
            then inl (HTTPException 400
                        "Source and target entities must belong to the same data model")
            else
              let relationship := new_relationship model_id data st2 in
              let st3 :=
                Session.mk (projects st2) (data_models st2) (entities st2)
                           (attributes st2) (relationships st2 ++ [relationship])
                           (relationship_attributes st2)
                           (N.succ (next_uuid st2)) (now st2) in
              match create_mappings data relationship u st3 with
              | inl e => inl e
              | inr (_, st4) => inr (relationship, st4)
              end
        end
    end.
Proof.
  unfold create_relationship. unfold bind at 1.
  destruct (get_entity_by_id _ _ st) as [e | [se st1]]; [reflexivity |].
  unfold bind at 1.
  destruct (get_entity_by_id _ _ st1) as [e | [te st2]]; [reflexivity |].
  destruct (_ || _); [reflexivity |].
  cbv zeta. unfold bind at 1. unfold global. simpl Profiler.str_in. cbv iota.
  unfold ret at 1. unfold bind at 1.
  unfold add_relationship, uuid4, get, put, ret, bind. cbn.
  unfold new_relationship.
  destruct (create_mappings _ _ _ _) as [e | [[] st4]]; reflexivity.
Qed.

(** X19.  [create_relationship] returns exactly when the request carries
    no attribute mapping, both entities are stored in a model of a project
    that is public or owned by the user, and both belong to the model
    named in the call; it then adds one row, with a fresh id, to the
    relationships and leaves the other tables alone.  A request with at
    least one attribute mapping never returns, so nothing is committed
    for it. *)
Theorem create_relationship_returns
    (model_id : UUID) (data : RelationshipCreate.t) (u : UUID)
    (st st' : Store) (r : Relationship.t) :
  create_relationship model_id data u st = inr (r, st')
  <-> RelationshipCreate.attribute_mappings data = []
      /\ (exists source_entity target_entity,
             get_entity_by_id (RelationshipCreate.source_entity_id data)
                              (Some u) st = inr (source_entity, st)
             /\ get_entity_by_id (RelationshipCreate.target_entity_id data)
                                 (Some u) st = inr (target_entity, st)
             /\ Entity.data_model_id source_entity = model_id
             /\ Entity.data_model_id target_entity = model_id)
      /\ r = new_relationship model_id data st
      /\ Relationship.id r = next_uuid st
      /\ st' = Session.mk (projects st) (data_models st) (entities st)
                          (attributes st) (relationships st ++ [r])
                          (relationship_attributes st)
                          (N.succ (next_uuid st)) (now st).
Proof.
  rewrite create_relationship_run.
  destruct (get_entity_by_id (RelationshipCreate.source_entity_id data) (Some u) st)
    as [e | [se st1]] eqn:Hs.
  { split; [discriminate |]. intros (_ & (se & te & H & _) & _). discriminate H. }
  pose proof (proj1 (get_entity_by_id_spec _ _ _ _ _) Hs) as (-> & _).
  destruct (get_entity_by_id (RelationshipCreate.target_entity_id data) (Some u) st)
    as [e | [te st2]] eqn:Ht.
  { split; [discriminate |]. intros (_ & (se' & te & _ & H & _) & _). discriminate H. }
  pose proof (proj1 (get_entity_by_id_spec _ _ _ _ _) Ht) as (-> & _).
  destruct (N.eqb_spec (Entity.data_model_id se) model_id) as [Hse | Hse]; simpl.
  2:{ split; [discriminate |].
      intros (_ & (se' & te' & [= <-] & _ & H & _) & _). contradiction. }
  destruct (N.eqb_spec (Entity.data_model_id te) model_id) as [Hte | Hte]; simpl.
  2:{ split; [discriminate |].
      intros (_ & (se' & te' & _ & [= <-] & _ & H) & _). contradiction. }
  destruct (RelationshipCreate.attribute_mappings data) as [|m rest] eqn:Hmaps.
  - unfold create_mappings. rewrite Hmaps. cbn [for_each]. unfold ret. split.
    + intros [= <- <-]. split; [reflexivity |].
      split; [exists se, te; auto |]. repeat split.
    + intros (_ & _ & -> & _ & ->). reflexivity.
  - match goal with |- context [create_mappings data ?rel u ?s] =>
      destruct (create_mappings_raises data rel u s) as [e He];
        [rewrite Hmaps; discriminate | rewrite He] end.
    split; [discriminate | intros (H & _); discriminate H].
Qed.

(** X20.  When the request is sound in every respect (both entities
    readable and in the model, the attributes of its first mapping
    readable and on these entities), [create_relationship] raises
    NameError: the class name [RelationshipAttributeMapping] is not bound
    in the module. *)
Theorem create_relationship_mapping_raises
    (model_id : UUID) (data : RelationshipCreate.t) (u : UUID) (st : Store)
    (source_entity target_entity : Entity.t)
    (mapping_data : RelationshipAttributeMappingCreate.t)
    (rest : list RelationshipAttributeMappingCreate.t)
    (source_attr target_attr : Attribute.t) :
  get_entity_by_id (RelationshipCreate.source_entity_id data) (Some u) st
  = inr (source_entity, st) ->
  get_entity_by_id (RelationshipCreate.target_entity_id data) (Some u) st
  = inr (target_entity, st) ->
  Entity.data_model_id source_entity = model_id ->
  Entity.data_model_id target_entity = model_id ->
  RelationshipCreate.attribute_mappings data = mapping_data :: rest ->
  get_attribute_by_id
    (RelationshipAttributeMappingCreate.source_attribute_id mapping_data)
    (Some u) st = inr (source_attr, st) ->
  get_attribute_by_id
    (RelationshipAttributeMappingCreate.target_attribute_id mapping_data)
    (Some u) st = inr (target_attr, st) ->
  Attribute.entity_id source_attr = RelationshipCreate.source_entity_id data ->
  Attribute.entity_id target_attr = RelationshipCreate.target_entity_id data ->
  create_relationship model_id data u st
  = inl (NameError "RelationshipAttributeMapping")
  /\ committed st (create_relationship model_id data u st) = st.
Proof.
  intros Hs Ht Hse Hte Hmaps Hsa Hta Hsae Htae.
  assert (Hrun : create_relationship model_id data u st
                 = inl (NameError "RelationshipAttributeMapping")).
  { rewrite create_relationship_run, Hs, Ht, Hse, Hte, !N.eqb_refl. simpl.
    unfold create_mappings. rewrite Hmaps. cbn [for_each].
    unfold bind at 1. unfold bind at 1.
    match goal with |- context [get_attribute_by_id _ (Some u) ?s1] =>
      rewrite (get_attribute_by_id_frame _ u st s1 eq_refl eq_refl eq_refl
                 eq_refl _ Hsa) end.
    unfold bind at 1.
    match goal with |- context [get_attribute_by_id _ (Some u) ?s1] =>
      rewrite (get_attribute_by_id_frame _ u st s1 eq_refl eq_refl eq_refl
                 eq_refl _ Hta) end.
    rewrite Hsae, Htae, !N.eqb_refl. reflexivity. }
  split; [exact Hrun | now rewrite Hrun].
Qed.

Lemma create_relationship_mapping_raises_witness :
  create_relationship 20 Graph.places_request 1 sample_store
  = inl (NameError "RelationshipAttributeMapping").
Proof.
  exact (proj1 (create_relationship_mapping_raises 20 Graph.places_request 1
                  sample_store customer order
                  (RelationshipAttributeMappingCreate.mk 40 42) []
                  customer_id order_customer
                  eq_refl eq_refl eq_refl eq_refl eq_refl eq_refl eq_refl
                  eq_refl eq_refl)).
Defined.

End ServiceFacts.

(* ================================================================== *)
(** * Facts about the copied graph                                     *)
(* ================================================================== *)

Module GraphFacts.
Import Py PyVal Session Cloner Service Graph SpecGraph ClonerFacts.

#[local] Open Scope N_scope.

(** ** Single steps *)



Lemma add_attribute_run row st :
  add_attribute row st
  = inr (row (next_uuid st) (now st),
         Session.mk (projects st) (data_models st) (entities st)
                    (attributes st ++ [row (next_uuid st) (now st)])
                    (relationships st) (relationship_attributes st)
                    (N.succ (next_uuid st)) (now st)).
Proof. reflexivity. Qed.





(** ** The loop over the attributes of one entity *)




(** ** The loop over the entities *)







(** ** The loop over the attribute mappings of one relationship *)


(** ** The loop over the relationships *)



(** ** The whole call *)









(** ** The flags of the other versions *)

Lemma create_version_models model_id user_id st new_model st' :
  create_version model_id user_id st = inr (new_model, st') ->
  exists source_model,
    find (fun r => N.eqb (DataModel.id r) model_id) (data_models st)
    = Some source_model
    /\ DataModel.is_latest_version new_model = true
    /\ data_models st'
       = map (fun r => if N.eqb (DataModel.id r) (DataModel.id source_model)
                       then DataModel.set_is_latest_version source_model false (now st)
                       else r)
             (data_models st)
         ++ [new_model].
Proof.
  unfold create_version. intros H.
  step H. apply get_data_model_by_id_inr in Hstep as [-> Hfind].
  step H. apply global_inr in Hstep as ->.
  step H. apply global_inr in Hstep as ->.
  step H. unfold lift in Hstep.
  destruct (Version._increment_version _) as [e | version]; [discriminate |].
  injection Hstep as <- <-.
  step H. injection Hstep as <- <-.
  step H. unfold update_data_model in Hstep. injection Hstep as _ <-.
  step H. unfold add_data_model, bind, uuid4, get, put, ret in Hstep.
  cbn in Hstep. injection Hstep as <- <-.
  step H. destruct x3 as [entity_id_map attribute_id_map].
  step H. injection H as <- <-.
  pose proof (copy_entities_models _ _ _ _ _ _ eq_refl Hstep) as Hm1.
  pose proof (copy_relationships_models _ _ _ _ _ _ _ _ Hm1 Hstep0) as Hm2.
  unfold same_models in Hm2. cbn in Hm2.
  exists x. split; [exact Hfind |]. split; [reflexivity | exact Hm2].
Qed.

Lemma map_flag_other (k : UUID) (f : DataModel.t) (l : list DataModel.t) :
  ~ In k (map DataModel.id l) ->
  map (fun r => if N.eqb (DataModel.id r) k then f else r) l = l.
Proof.
  induction l as [|r l IH]; simpl; intros Hk; [reflexivity |].
  destruct (N.eqb_spec (DataModel.id r) k) as [E | _]; [tauto |].
  rewrite IH; tauto.
Qed.

Lemma latest_after_flag (k : UUID) (src f : DataModel.t) (l : list DataModel.t) :
  List.NoDup (map DataModel.id l) ->
  find (fun r => N.eqb (DataModel.id r) k) l = Some src ->
  DataModel.is_latest_version f = false ->
  (latest_count (map (fun r => if N.eqb (DataModel.id r) (DataModel.id src)
                               then f else r) l)
   + (if DataModel.is_latest_version src then 1 else 0)
   = latest_count l)%nat.
Proof.
  intros Hnd Hfind Hf. unfold latest_count.
  induction l as [|r l IH]; simpl in *; [discriminate |].
  inversion Hnd as [|? ? Hr Hnd']; subst.
  destruct (N.eqb_spec (DataModel.id r) k) as [Hk | Hk].
  - injection Hfind as <-. rewrite N.eqb_refl. simpl. rewrite Hf.
    rewrite (map_flag_other _ f l Hr).
    destruct (DataModel.is_latest_version r); simpl; lia.
  - assert (DataModel.id src = k) as Hsrc.
    { apply find_some in Hfind as [_ H]. now apply N.eqb_eq in H. }
    destruct (N.eqb_spec (DataModel.id r) (DataModel.id src)) as [E | _];
      [congruence |].
    simpl. specialize (IH Hnd' Hfind).
    destruct (DataModel.is_latest_version r); simpl; lia.
Qed.

(** X23.  [create_version] rewrites one row of the data models, the
    source's, and appends the new one; it does not look for the version
    that is currently the latest.  So the number of models flagged as
    latest stays the same when the source was flagged, and goes up by one
    when it was not: versioning an old version leaves the former latest
    version flagged next to the new one. *)
Theorem create_version_latest_count
    (model_id user_id : UUID) (st st' : Store) (new_model : DataModel.t) :
  create_version model_id user_id st = inr (new_model, st') ->
  List.NoDup (map DataModel.id (data_models st)) ->
  exists source_model,
    find (fun r => N.eqb (DataModel.id r) model_id) (data_models st)
    = Some source_model
    /\ latest_count (data_models st')
       = (latest_count (data_models st)
          + (if DataModel.is_latest_version source_model then 0 else 1))%nat
    /\ (forall m, In m (data_models st) -> DataModel.id m <> model_id ->
                  In m (data_models st')).
Proof.
  intros Hrun Hnd.
  destruct (create_version_models _ _ _ _ _ Hrun) as (src & Hfind & Hnew & Hmodels).
  exists src. split; [exact Hfind |].
  assert (Hsrc : DataModel.id src = model_id).
  { apply find_some in Hfind as [_ H]. now apply N.eqb_eq in H. }
  split.
  - pose proof (latest_after_flag model_id src
                  (DataModel.set_is_latest_version src false (now st))
                  (data_models st) Hnd Hfind eq_refl) as Hcount.
    rewrite Hmodels. unfold latest_count in *.
    rewrite List.filter_app, List.length_app. simpl. rewrite Hnew. simpl.
    destruct (DataModel.is_latest_version src); lia.
  - intros m Hin Hne. rewrite Hmodels. apply in_app_iff. left.
    apply in_map_iff. exists m. split; [| exact Hin].
    destruct (N.eqb_spec (DataModel.id m) (DataModel.id src)); [congruence | reflexivity].
Qed.

Lemma create_version_latest_count_witness :
  exists new_model st',
    create_version 20 2 sample_store_unmapped = inr (new_model, st')
    /\ latest_count (data_models st') = 1%nat.
Proof.
  destruct (create_version 20 2 sample_store_unmapped)
    as [e | [new_model st']] eqn:Hrun; [vm_compute in Hrun; discriminate Hrun |].
  exists new_model, st'. split; [reflexivity |].
  assert (Hnd : List.NoDup (map DataModel.id (data_models sample_store_unmapped))).
  { simpl. constructor; [intros [] | constructor]. }
  destruct (create_version_latest_count 20 2 sample_store_unmapped st' new_model
              Hrun Hnd) as (src & Hfind & Hcount & _).
  vm_compute in Hfind. injection Hfind as <-. exact Hcount.
Defined.

End GraphFacts.
